(** * The GA4 OAuth relay front end: authorize, callback, payment

    A shallow embedding of the React components of the repository:

    - [OAuthGoogle], the authorize page, the callback page and the error
      view.  The repository holds two revisions of this component.  The
      development follows the current one, the one that forwards to the
      payment page (source file unnamed/part_001); module [Earlier] embeds
      the handlers of the previous one (src/components/Oauth.tsx) where
      they differ.
    - [Payment], the payment page, and [App], the routes (both in
      src/App.tsx).

    Component state (the [useState] cells) and the browser's
    [sessionStorage] are threaded explicitly; everything a handler does to
    the outside (storage writes, the provider sign-in call, the backend
    POST, navigation, alerts) is appended to a trace in program order;
    console output is left out.  The answers of the outside world (the
    identity session, the backend's response, the verification response)
    are inputs of the handlers.

    Text is carried as [string], read as the UTF-8 bytes of the JavaScript
    string: JSON quoting and percent-encoding both act bytewise on it. *)

From Stdlib Require Import String Ascii NArith ZArith List Bool Lia.
From Stdlib Require Import DecimalString.
From stdpp Require Import base option strings gmap.

Local Open Scope string_scope.

(* stdpp keeps [append] folded; the proofs below compute with it. *)
#[local] Arguments String.append !s1 s2 : simpl nomatch.

(** ** Characters and small string helpers *)

Definition dquote : ascii := "034"%char.
Definition bslash : ascii := "092"%char.

Definition str1 (c : ascii) : string := String c EmptyString.

Definition is_empty (s : string) : bool :=
  match s with EmptyString => true | String _ _ => false end.

(** JavaScript truthiness of a [string | null] value: [null] and the empty
    string are falsy. *)
Definition truthy (v : option string) : bool :=
  match v with
  | None => false
  | Some s => negb (is_empty s)
  end.

(** [v || d] for a [string | null] (or [string | undefined]) value. *)
Definition or_default (v : option string) (d : string) : string :=
  match v with
  | Some (String c r) => String c r
  | _ => d
  end.

(** [a || b] where both sides may be absent. *)
Definition or_else (a b : option string) : option string :=
  if truthy a then a else b.

(** ** JSON text of flat objects

    [JSON.stringify] and [JSON.parse] on the values the component stores:
    objects whose members are strings or [null]. *)

(** A flat object: its properties in creation order, which is the order
    [JSON.stringify] and [Object.entries] visit them in (no key here is an
    array index). *)
Definition JsObject : Type := list (string * option string).

Definition hex_lower (n : N) : ascii :=
  ascii_of_N (if (n <? 10)%N then 48 + n else 87 + n)%N.

(** QuoteJSONString, one character. *)
Definition JSON_quote_char (c : ascii) : string :=
  let n := N_of_ascii c in
  if (n =? 34)%N then String bslash (str1 dquote)
  else if (n =? 92)%N then String bslash (str1 bslash)
  else if (n =? 8)%N then String bslash "b"
  else if (n =? 9)%N then String bslash "t"
  else if (n =? 10)%N then String bslash "n"
  else if (n =? 12)%N then String bslash "f"
  else if (n =? 13)%N then String bslash "r"
  else if (n <? 32)%N then
    String bslash (String "u" (String "0" (String "0"
      (String (hex_lower (n / 16)) (str1 (hex_lower (n mod 16)))))))
  else str1 c.

Fixpoint JSON_quote_body (s : string) : string :=
  match s with
  | EmptyString => EmptyString
  | String c r => JSON_quote_char c +:+ JSON_quote_body r
  end.

Definition JSON_quote (s : string) : string :=
  String dquote (JSON_quote_body s +:+ str1 dquote).

Definition JSON_value (v : option string) : string :=
  match v with
  | None => "null"
  | Some s => JSON_quote s
  end.

Definition JSON_member (kv : string * option string) : string :=
  JSON_quote (fst kv) +:+ ":" +:+ JSON_value (snd kv).

Fixpoint JSON_members (o : JsObject) : string :=
  match o with
  | [] => EmptyString
  | [kv] => JSON_member kv
  | kv :: rest => JSON_member kv +:+ "," +:+ JSON_members rest
  end.

(** [JSON.stringify(o)] for a flat object, members in property order. *)
Definition JSON_stringify (o : JsObject) : string :=
  "{" +:+ JSON_members o +:+ "}".

(** *** Parsing *)

Definition hex_value (c : ascii) : option N :=
  let n := N_of_ascii c in
  if ((48 <=? n) && (n <=? 57))%N then Some (n - 48)%N
  else if ((97 <=? n) && (n <=? 102))%N then Some (n - 87)%N
  else if ((65 <=? n) && (n <=? 70))%N then Some (n - 55)%N
  else None.

Definition hex4 (a b c d : ascii) : option N :=
  match hex_value a, hex_value b, hex_value c, hex_value d with
  | Some x, Some y, Some z, Some w =>
      Some (x * 4096 + y * 256 + z * 16 + w)%N
  | _, _, _, _ => None
  end.

(** UTF-8 bytes of a code point of the basic plane.  A surrogate code unit
    has no UTF-8 form; such escapes are outside what [string] can carry. *)
Definition utf8 (cp : N) : option string :=
  if (cp <? 128)%N then Some (str1 (ascii_of_N cp))
  else if (cp <? 2048)%N then
    Some (String (ascii_of_N (192 + cp / 64))
           (str1 (ascii_of_N (128 + cp mod 64))))
  else if ((55296 <=? cp) && (cp <=? 57343))%N then None
  else
    Some (String (ascii_of_N (224 + cp / 4096))
           (String (ascii_of_N (128 + (cp / 64) mod 64))
             (str1 (ascii_of_N (128 + cp mod 64))))).

Definition simple_escape (e : ascii) : option ascii :=
  let n := N_of_ascii e in
  if (n =? 34)%N then Some dquote
  else if (n =? 92)%N then Some bslash
  else if (n =? 47)%N then Some "/"%char
  else if (n =? 98)%N then Some (ascii_of_N 8)
  else if (n =? 116)%N then Some (ascii_of_N 9)
  else if (n =? 110)%N then Some (ascii_of_N 10)
  else if (n =? 102)%N then Some (ascii_of_N 12)
  else if (n =? 114)%N then Some (ascii_of_N 13)
  else None.

Definition prepend (p : string) (r : option (string * string))
  : option (string * string) :=
  match r with
  | Some (t, rest) => Some (p +:+ t, rest)
  | None => None
  end.

(** The characters after an opening quote, up to and including the closing
    quote: the decoded string and the unread rest. *)
Fixpoint parse_string_body (s : string) : option (string * string) :=
  match s with
  | EmptyString => None
  | String c r =>
      let n := N_of_ascii c in
      if (n =? 34)%N then Some (EmptyString, r)
      else if (n =? 92)%N then
        match r with
        | EmptyString => None
        | String e r1 =>
            match simple_escape e with
            | Some d => prepend (str1 d) (parse_string_body r1)
            | None =>
                if (N_of_ascii e =? 117)%N then
                  match r1 with
                  | String h1 (String h2 (String h3 (String h4 r2))) =>
                      match hex4 h1 h2 h3 h4 with
                      | Some cp =>
                          match utf8 cp with
                          | Some bytes => prepend bytes (parse_string_body r2)
                          | None => None
                          end
                      | None => None
                      end
                  | _ => None
                  end
                else None
            end
        end
      else if (n <? 32)%N then None
      else prepend (str1 c) (parse_string_body r)
  end.

Definition is_ws (c : ascii) : bool :=
  let n := N_of_ascii c in
  ((n =? 32) || (n =? 9) || (n =? 10) || (n =? 13))%N.

Fixpoint skip_ws (s : string) : string :=
  match s with
  | String c r => if is_ws c then skip_ws r else s
  | EmptyString => EmptyString
  end.

(** A member value: a string or the literal [null]. *)
Definition parse_value (s : string) : option (option string * string) :=
  match s with
  | String c r =>
      if (N_of_ascii c =? 34)%N then
        match parse_string_body r with
        | Some (v, rest) => Some (Some v, rest)
        | None => None
        end
      else
        match s with
        | String "n" (String "u" (String "l" (String "l" rest))) =>
            Some (None, rest)
        | _ => None
        end
  | EmptyString => None
  end.

(** Property assignment on an object under construction: an existing key
    keeps its place and takes the new value, a new key goes last. *)
Fixpoint obj_set (o : JsObject) (k : string) (v : option string) : JsObject :=
  match o with
  | [] => [(k, v)]
  | (k', v') :: rest =>
      if String.eqb k' k then (k', v) :: rest
      else (k', v') :: obj_set rest k v
  end.

Fixpoint parse_members (fuel : nat) (s : string) (acc : JsObject)
  : option JsObject :=
  match fuel with
  | O => None
  | S fuel' =>
      match skip_ws s with
      | String c r =>
          if (N_of_ascii c =? 34)%N then
            match parse_string_body r with
            | Some (k, r1) =>
                match skip_ws r1 with
                | String ":" r2 =>
                    match parse_value (skip_ws r2) with
                    | Some (v, r3) =>
                        match skip_ws r3 with
                        | String "," r4 =>
                            parse_members fuel' r4 (obj_set acc k v)
                        | String "}" r4 =>
                            if is_empty (skip_ws r4)
                            then Some (obj_set acc k v) else None
                        | _ => None
                        end
                    | None => None
                    end
                | _ => None
                end
            | None => None
            end
          else None
      | EmptyString => None
      end
  end.

(** [JSON.parse(s)] where the text is a flat object; [None] when
    [JSON.parse] throws a SyntaxError and also for JSON texts that are not a
    flat object of strings and nulls (numbers, nesting, arrays, surrogate
    escapes), which the component never stores. *)
Definition JSON_parse (s : string) : option JsObject :=
  match skip_ws s with
  | String "{" r =>
      match skip_ws r with
      | String "}" r' => if is_empty (skip_ws r') then Some [] else None
      | _ => parse_members (String.length s) r []
      end
  | _ => None
  end.

(** Property read [o.k] ([None] is [undefined] or [null]). *)
Fixpoint obj_get (o : JsObject) (k : string) : option string :=
  match o with
  | [] => None
  | (k', v) :: rest => if String.eqb k' k then v else obj_get rest k
  end.

(** ** URL encoding, [URLSearchParams] and [URL] *)

Definition hex_upper (n : N) : ascii :=
  ascii_of_N (if (n <? 10)%N then 48 + n else 55 + n)%N.

Definition percent_byte (c : ascii) : string :=
  let n := N_of_ascii c in
  String "%" (String (hex_upper (n / 16)) (str1 (hex_upper (n mod 16)))).

Definition is_alnum (c : ascii) : bool :=
  let n := N_of_ascii c in
  (((48 <=? n) && (n <=? 57)) || ((65 <=? n) && (n <=? 90))
   || ((97 <=? n) && (n <=? 122)))%N.

(** The characters [encodeURIComponent] leaves alone: letters, digits and
    [- _ . ! ~ * ' ( )]. *)
Definition uri_unreserved (c : ascii) : bool :=
  let n := N_of_ascii c in
  is_alnum c
  || ((n =? 45) || (n =? 95) || (n =? 46) || (n =? 33) || (n =? 126)
      || (n =? 42) || (n =? 39) || (n =? 40) || (n =? 41))%N.

Definition encodeURIComponent_char (c : ascii) : string :=
  if uri_unreserved c then str1 c else percent_byte c.

Fixpoint encodeURIComponent (s : string) : string :=
  match s with
  | EmptyString => EmptyString
  | String c r => encodeURIComponent_char c +:+ encodeURIComponent r
  end.

(** The application/x-www-form-urlencoded serializer used by
    [URLSearchParams]: letters, digits and [* - . _] stay, a space becomes
    [+], every other byte is percent-encoded. *)
Definition form_encode_char (c : ascii) : string :=
  let n := N_of_ascii c in
  if is_alnum c || ((n =? 42) || (n =? 45) || (n =? 46) || (n =? 95))%N
  then str1 c
  else if (n =? 32)%N then "+"
  else percent_byte c.

Fixpoint form_encode (s : string) : string :=
  match s with
  | EmptyString => EmptyString
  | String c r => form_encode_char c +:+ form_encode r
  end.

(** Percent-decoding, on bytes.  The result is read as UTF-8: for the
    bytes of a well-formed text that is the text itself.  (Where the
    decoded bytes are not UTF-8 a browser substitutes U+FFFD; here they
    stay as they are.) *)
Fixpoint percent_decode (s : string) : string :=
  match s with
  | EmptyString => EmptyString
  | String c r =>
      if (N_of_ascii c =? 37)%N then
        match r with
        | String h1 (String h2 r2) =>
            match hex_value h1, hex_value h2 with
            | Some a, Some b =>
                String (ascii_of_N (a * 16 + b)) (percent_decode r2)
            | _, _ => String c (percent_decode r)
            end
        | _ => String c (percent_decode r)
        end
      else String c (percent_decode r)
  end.

Fixpoint plus_to_space (s : string) : string :=
  match s with
  | EmptyString => EmptyString
  | String c r =>
      String (if (N_of_ascii c =? 43)%N then " "%char else c) (plus_to_space r)
  end.

(** [s.split(sep)] for a one-character separator. *)
Fixpoint split_on (sep : ascii) (s : string) : list string :=
  match s with
  | EmptyString => [EmptyString]
  | String c r =>
      if Ascii.eqb c sep then EmptyString :: split_on sep r
      else
        match split_on sep r with
        | [] => [str1 c]
        | w :: ws => String c w :: ws
        end
  end.

(** Name and value of one [name=value] sequence: cut at the first [=];
    without one the whole sequence is the name and the value is empty. *)
Fixpoint cut_at_equals (s : string) : string * string :=
  match s with
  | EmptyString => (EmptyString, EmptyString)
  | String c r =>
      if (N_of_ascii c =? 61)%N then (EmptyString, r)
      else let '(n, v) := cut_at_equals r in (String c n, v)
  end.

Definition form_decode (s : string) : string :=
  percent_decode (plus_to_space s).

Definition URLSearchParams : Type := list (string * string).

(** The application/x-www-form-urlencoded parser: the text is split at
    [&], empty sequences are skipped, name and value are decoded. *)
Definition parse_query (body : string) : URLSearchParams :=
  map (fun seq => let '(n, v) := cut_at_equals seq in
                  (form_decode n, form_decode v))
      (List.filter (fun seq => negb (is_empty seq)) (split_on "&" body)).

(** [new URLSearchParams(search)]: a leading [?] is dropped. *)
Definition URLSearchParams_new (search : string) : URLSearchParams :=
  parse_query
    match search with
    | String "?" r => r
    | _ => search
    end.

(** [params.get(name)]: the first value of that name, or [null]. *)
Fixpoint URLSearchParams_get (q : URLSearchParams) (name : string)
  : option string :=
  match q with
  | [] => None
  | (n, v) :: rest =>
      if String.eqb n name then Some v else URLSearchParams_get rest name
  end.

(** [params.set(name, value)]: the first pair of that name takes the value
    and later pairs of that name are removed; without one the pair is
    appended. *)
Fixpoint URLSearchParams_set (q : URLSearchParams) (name value : string)
  : URLSearchParams :=
  match q with
  | [] => [(name, value)]
  | (n, v) :: rest =>
      if String.eqb n name
      then (n, value) :: List.filter (fun p => negb (String.eqb (fst p) name)) rest
      else (n, v) :: URLSearchParams_set rest name value
  end.

Fixpoint URLSearchParams_toString (q : URLSearchParams) : string :=
  match q with
  | [] => EmptyString
  | [(n, v)] => form_encode n +:+ "=" +:+ form_encode v
  | (n, v) :: rest =>
      form_encode n +:+ "=" +:+ form_encode v +:+ "&"
      +:+ URLSearchParams_toString rest
  end.

Record URL : Type := mkURL {
  url_origin : string;
  url_pathname : string;
  searchParams : URLSearchParams
}.

(** [new URL(path, base)] for an absolute path and a base that is an
    origin: the path replaces the base's path and the query is empty. *)
Definition URL_new (path base : string) : URL :=
  {| url_origin := base; url_pathname := path; searchParams := [] |}.

Definition URL_toString (u : URL) : string :=
  url_origin u +:+ url_pathname u +:+
  match searchParams u with
  | [] => EmptyString
  | q => "?" +:+ URLSearchParams_toString q
  end.

(** [s.substr(0, i)] and [s.substr(i)] for the first index [i] of [sep];
    the whole text and nothing when [sep] does not occur. *)
Fixpoint cut_before (sep : ascii) (s : string) : string * string :=
  match s with
  | EmptyString => (EmptyString, EmptyString)
  | String c r =>
      if Ascii.eqb c sep then (EmptyString, s)
      else let '(a, b) := cut_before sep r in (String c a, b)
  end.

(** react-router's [parsePath]: the hash is cut off at the first [#], then
    the search at the first [?]; pathname and search of a [navigate]
    target. *)
Definition parsePath (to : string) : string * string :=
  cut_before "?" (fst (cut_before "#" to)).

(** Decimal text of an integer, as a template literal prints a number. *)
Definition Number_toString (z : Z) : string :=
  NilZero.string_of_int (Z.to_int z).

(** ** Data of the components *)

(** [interface OAuthParams]: seven [string | null] fields. *)
Record OAuthParams : Type := mkOAuthParams {
  client_id : option string;
  redirect_uri : option string;
  response_type : option string;
  state : option string;
  code_challenge : option string;
  code_challenge_method : option string;
  scope : option string
}.

(** The object behind an [OAuthParams] value: its properties in the order
    the literal in [useEffect] creates them, which is the order
    [JSON.stringify] and [Object.entries] visit them in. *)
Definition Object_entries (p : OAuthParams) : JsObject :=
  [ ("client_id", client_id p);
    ("redirect_uri", redirect_uri p);
    ("response_type", response_type p);
    ("state", state p);
    ("code_challenge", code_challenge p);
    ("code_challenge_method", code_challenge_method p);
    ("scope", scope p) ].

(** Reading the seven fields off a parsed object. *)
Definition as_OAuthParams (o : JsObject) : OAuthParams :=
  {| client_id := obj_get o "client_id";
     redirect_uri := obj_get o "redirect_uri";
     response_type := obj_get o "response_type";
     state := obj_get o "state";
     code_challenge := obj_get o "code_challenge";
     code_challenge_method := obj_get o "code_challenge_method";
     scope := obj_get o "scope" |}.

(** [interface CallbackResponse]. *)
Record CallbackResponse : Type := mkCallbackResponse {
  success : bool;
  message : option string;
  redirectUrl : option string
}.

(** The part of a Supabase [Session] the component reads. *)
Module UserMetadata.
Record t : Type := mk {
  provider_id : option string;
  full_name : option string;
  name : option string;
  avatar_url : option string;
  picture : option string;
  email_verified : option bool;
  locale : option string;
  custom_claims_hd : option (option string)
    (* [custom_claims] absent, or present with its optional [hd] *)
}.
End UserMetadata.

Module User.
Record t : Type := mk {
  id : string;
  email : option string;
  user_metadata : UserMetadata.t
}.
End User.

Module Session.
Record t : Type := mk {
  provider_token : option string;
  provider_refresh_token : option string;
  expires_in : Z;
  token_type : string;
  user : User.t
}.
End Session.

(** [interface GoogleCredentials]. *)
Module GoogleCredentials.
Record t : Type := mk {
  access_token : string;
  refresh_token : option string;
  expires_in : Z;
  token_type : string;
  scope : string
}.
End GoogleCredentials.

(** [interface GoogleProfile]. *)
Module GoogleProfile.
Record t : Type := mk {
  id : string;
  email : string;
  name : string;
  picture : string;
  email_verified : bool;
  locale : option string;
  hd : option string
}.
End GoogleProfile.

(** [interface ClientMetadata]. *)
Module ClientMetadata.
Record t : Type := mk {
  timestamp : string;
  user_agent : string;
  screen_resolution : string;
  timezone : string;
  language : string;
  referrer : string
}.
End ClientMetadata.

(** [interface EnhancedSessionData]. *)
Record EnhancedSessionData : Type := mkEnhancedSessionData {
  session : Session.t;
  google_credentials : GoogleCredentials.t;
  google_profile : GoogleProfile.t;
  client_metadata : ClientMetadata.t
}.

(** What the page can read of the browser it runs in. *)
Record Browser : Type := mkBrowser {
  location_origin : string;          (* window.location.origin *)
  now_ISO : string;                  (* new Date().toISOString() *)
  navigator_userAgent : string;
  screen_width : Z;
  screen_height : Z;
  resolved_timeZone : string;        (* Intl.DateTimeFormat()... .timeZone *)
  navigator_language : string;
  document_referrer : string
}.

(** *** The outside world's answers *)

(** [supabase.auth.getSession()] resolves to [{ data: { session }, error }]. *)
Record GetSessionResult : Type := mkGetSessionResult {
  data_session : option Session.t;
  sessionError : option string
}.

(** A response as the transport delivers it.  The body is of the type the
    source gives it, [axios.post<CallbackResponse>]; a response without a
    body reaches the page as the empty text, on which every property reads
    [undefined]. *)
Record HttpResponse : Type := mkHttpResponse {
  status : Z;
  data : option CallbackResponse   (* the body, when there is one *)
}.

(** What happens to a POST on the wire: a response arrives before the
    timeout, or none does (time-out, network failure), with the message
    axios gives the error. *)
Inductive Transport : Type :=
| Responded (r : HttpResponse)
| NoResponse (err_message : string).

(** What a [try] block can throw here. *)
Inductive Thrown : Type :=
| AxiosError (response : option HttpResponse) (err_message : string)
| OtherError.

Inductive Settled (A : Type) : Type :=
| Fulfilled (a : A)
| Rejected (e : Thrown).
Arguments Fulfilled {A} a.
Arguments Rejected {A} e.

(** axios settles a request by the response status: the default
    [validateStatus] accepts 200 to 299, any other status rejects with an
    error that carries the response. *)
Definition validateStatus (st : Z) : bool :=
  ((200 <=? st) && (st <? 300))%Z.

Definition axios_settle (t : Transport) : Settled HttpResponse :=
  match t with
  | Responded r =>
      if validateStatus (status r) then Fulfilled r
      else Rejected
             (AxiosError (Some r)
                ("Request failed with status code "
                 +:+ Number_toString (status r)))
  | NoResponse m => Rejected (AxiosError None m)
  end.

(** The options of [supabase.auth.signInWithOAuth]. *)
Record SignInOptions : Type := mkSignInOptions {
  provider : string;
  redirectTo : string;
  scopes : option string;
  queryParams : list (string * string)
}.

Inductive PostBody : Type :=
| EnhancedBody (d : EnhancedSessionData)
| SessionBody (s : Session.t).

Record PostConfig : Type := mkPostConfig {
  headers : list (string * string);
  timeout : Z
}.

Record Env : Type := mkEnv {
  browser : Browser;
  getSession : Settled GetSessionResult;
  signInWithOAuth : SignInOptions -> Settled (option string);
    (* resolves to [{ error }]: the provider's error message, if any *)
  backend : string -> PostBody -> Transport;
  granted_scope : string
    (* the scope the identity provider granted at consent; the Session
       object does not expose it *)
}.

(** ** Handlers: state, trace and exceptions *)

(** The [body] of the Razorpay checkout's verification request. *)
Record VerifyBody : Type := mkVerifyBody {
  razorpay_payment_id : option string;
  razorpay_signature : string
}.

Record CheckoutOptions : Type := mkCheckoutOptions {
  amount : Z;
  currency : string;
  checkout_name : string;
  description : string;
  prefill_email : string;
  retry_enabled : bool;
  retry_max_count : Z
}.

(** Everything a handler does to the outside, in program order. *)
Inductive Effect : Type :=
| SetItem (key value : string)          (* sessionStorage.setItem *)
| RemoveItem (key : string)             (* sessionStorage.removeItem *)
| SignIn (opts : SignInOptions)         (* supabase.auth.signInWithOAuth *)
| Post (url : string) (body : PostBody) (config : PostConfig) (* axios.post *)
| Navigate (to : string)                (* react-router navigate *)
| LocationHref (href : string)          (* window.location.href = ... *)
| FetchVerify (url : string) (body : VerifyBody)
| OpenCheckout (options : CheckoutOptions)
| Alert (msg : string).

(** The three [useState] cells of [OAuthGoogle]. *)
Record Component : Type := mkComponent {
  isLoading : bool;
  oauthParams : option OAuthParams;
  error : option string
}.

Definition initial : Component :=
  {| isLoading := false; oauthParams := None; error := None |}.

Record World : Type := mkWorld {
  component : Component;
  sessionStorage : gmap string string;
  trace : list Effect
}.

Definition Handler (A : Type) : Type := World -> Settled A * World.

Definition ret {A} (a : A) : Handler A := fun w => (Fulfilled a, w).

Definition bind {A B} (m : Handler A) (k : A -> Handler B) : Handler B :=
  fun w =>
    match m w with
    | (Fulfilled a, w') => k a w'
    | (Rejected e, w') => (Rejected e, w')
    end.

#[export] Instance Handler_ret : MRet Handler := @ret.
#[export] Instance Handler_bind : MBind Handler :=
  fun A B k m => bind m k.

Definition throw {A} (e : Thrown) : Handler A := fun w => (Rejected e, w).

(** [try { body } catch (err) { handler }]. *)
Definition try_catch (body : Handler unit) (handler : Thrown -> Handler unit)
  : Handler unit :=
  fun w =>
    match body w with
    | (Fulfilled tt, w') => (Fulfilled tt, w')
    | (Rejected e, w') => handler e w'
    end.

(** [await p] for a promise that has settled as [s]. *)
Definition await {A} (s : Settled A) : Handler A := fun w => (s, w).

Definition emit (e : Effect) : Handler unit :=
  fun w =>
    (Fulfilled tt,
     {| component := component w;
        sessionStorage := sessionStorage w;
        trace := trace w ++ [e] |}).

Definition update (f : Component -> Component) : Handler unit :=
  fun w =>
    (Fulfilled tt,
     {| component := f (component w);
        sessionStorage := sessionStorage w;
        trace := trace w |}).

Definition setIsLoading (b : bool) : Handler unit :=
  update (fun c => {| isLoading := b; oauthParams := oauthParams c;
                      error := error c |}).

Definition setOauthParams (p : option OAuthParams) : Handler unit :=
  update (fun c => {| isLoading := isLoading c; oauthParams := p;
                      error := error c |}).

Definition setError (e : option string) : Handler unit :=
  update (fun c => {| isLoading := isLoading c; oauthParams := oauthParams c;
                      error := e |}).

Definition sessionStorage_setItem (key value : string) : Handler unit :=
  fun w =>
    (Fulfilled tt,
     {| component := component w;
        sessionStorage := <[key := value]> (sessionStorage w);
        trace := trace w ++ [SetItem key value] |}).

Definition sessionStorage_getItem (key : string) : Handler (option string) :=
  fun w => (Fulfilled (sessionStorage w !! key), w).

Definition sessionStorage_removeItem (key : string) : Handler unit :=
  fun w =>
    (Fulfilled tt,
     {| component := component w;
        sessionStorage := delete key (sessionStorage w);
        trace := trace w ++ [RemoveItem key] |}).

(** [JSON.parse(s)] on the stored text, throwing where [JSON_parse] has no
    result.  For the texts the login button writes, and for every flat
    object of strings and nulls, this is what [JSON.parse] does; a valid
    JSON text of another shape (a number, a nested value, a surrogate
    escape) is parsed by the real function and is not covered here. *)
Definition JSON_parse_or_throw (s : string) : Handler JsObject :=
  match JSON_parse s with
  | Some o => ret o
  | None => throw OtherError
  end.

(** [axios.post(url, body, config)]: the request goes out, then settles. *)
Definition axios_post (env : Env) (url : string) (body : PostBody)
    (config : PostConfig) : Handler HttpResponse :=
  emit (Post url body config) ;;
  await (axios_settle (backend env url body)).

Definition supabase_signInWithOAuth (env : Env) (opts : SignInOptions)
  : Handler (option string) :=
  emit (SignIn opts) ;;
  await (signInWithOAuth env opts).

(** ** [OAuthGoogle], current revision *)

Definition storage_key : string := "oauth_params".

Definition backendUrl : string :=
  "https://remote-ga4-mcp-229250458092.us-central1.run.app".

Definition login_scopes : string :=
  "openid email profile https://www.googleapis.com/auth/analytics.readonly https://www.googleapis.com/auth/analytics.manage.users.readonly".

Definition signIn_options (b : Browser) : SignInOptions :=
  {| provider := "google";
     redirectTo := location_origin b +:+ "/auth/callback";
     scopes := Some login_scopes;
     queryParams := [("access_type", "offline"); ("prompt", "consent")] |}.

(** [a || b] on numbers: zero is falsy. *)
Definition num_or (a b : Z) : Z := if (a =? 0)%Z then b else a.

Definition bool_or_false (a : option bool) : bool :=
  match a with Some b => b | None => false end.

(** The object literal [enhancedSessionData]. *)
Definition enhancedSessionData (b : Browser) (s : Session.t)
  : EnhancedSessionData :=
  let u := Session.user s in
  let m := User.user_metadata u in
  {| session := s;
     google_credentials :=
       {| GoogleCredentials.access_token :=
            or_default (Session.provider_token s) EmptyString;
          GoogleCredentials.refresh_token :=
            or_else (Session.provider_refresh_token s) None;
          GoogleCredentials.expires_in := num_or (Session.expires_in s) 3600;
          GoogleCredentials.token_type :=
            or_default (Some (Session.token_type s)) "Bearer";
          GoogleCredentials.scope :=
            "https://www.googleapis.com/auth/analytics.readonly" |};
     google_profile :=
       {| GoogleProfile.id :=
            or_default (UserMetadata.provider_id m) (User.id u);
          GoogleProfile.email := or_default (User.email u) EmptyString;
          GoogleProfile.name :=
            or_default (or_else (UserMetadata.full_name m)
                                (UserMetadata.name m)) EmptyString;
          GoogleProfile.picture :=
            or_default (or_else (UserMetadata.avatar_url m)
                                (UserMetadata.picture m)) EmptyString;
          GoogleProfile.email_verified :=
            bool_or_false (UserMetadata.email_verified m);
          GoogleProfile.locale := UserMetadata.locale m;
          GoogleProfile.hd :=
            match UserMetadata.custom_claims_hd m with
            | Some hd => hd
            | None => None
            end |};
     client_metadata :=
       {| ClientMetadata.timestamp := now_ISO b;
          ClientMetadata.user_agent := navigator_userAgent b;
          ClientMetadata.screen_resolution :=
            Number_toString (screen_width b) +:+ "x"
            +:+ Number_toString (screen_height b);
          ClientMetadata.timezone := resolved_timeZone b;
          ClientMetadata.language := navigator_language b;
          ClientMetadata.referrer :=
            or_default (Some (document_referrer b)) "direct" |} |}.

Definition searchParams_set (u : URL) (key value : string) : URL :=
  {| url_origin := url_origin u;
     url_pathname := url_pathname u;
     searchParams := URLSearchParams_set (searchParams u) key value |}.

(** [new URL('/callback', base)] followed by the [forEach] over
    [Object.entries(oauthParams)]: a truthy value is set under its key.
    The members are visited in the object's creation order, which is the
    order of [Object.entries] as long as no key is an array index (a key
    made of digits is visited first by the real function). *)
Definition callbackUrl (base : string) (stored : JsObject) : URL :=
  fold_left
    (fun u kv =>
       match snd kv with
       | Some (String c r) => searchParams_set u (fst kv) (String c r)
       | _ => u
       end)
    stored (URL_new "/callback" base).

Definition post_config : PostConfig :=
  {| headers := [("Content-Type", "application/json")]; timeout := 15000 |}.

(** The text the [catch] block of [handleSupabaseCallback] shows. *)
Definition callback_failure (e : Thrown) : string :=
  match e with
  | AxiosError response err_message =>
      let errorMessage :=
        or_default
          (match response with
           | Some r => match data r with Some d => message d | None => None end
           | None => None
           end) err_message in
      let statusCode :=
        match response with
        | Some r => Number_toString (status r)
        | None => "undefined"
        end in
      "Authentication failed (" +:+ statusCode +:+ "): " +:+ errorMessage
  | OtherError => "An unexpected error occurred during authentication"
  end.

Definition handleSupabaseCallback (env : Env) : Handler unit :=
  setIsLoading true ;;
  setError None ;;
  try_catch
    (r ← await (getSession env) ;
     match sessionError r, data_session r with
     | None, Some session =>
         storedParams ← sessionStorage_getItem storage_key ;
         if negb (truthy storedParams) then
           setError (Some "OAuth session expired. Please try again.") ;;
           setIsLoading false
         else
           stored ← JSON_parse_or_throw (or_default storedParams EmptyString) ;
           let enhanced := enhancedSessionData (browser env) session in
           let url := callbackUrl backendUrl stored in
           _ ← axios_post env (URL_toString url) (EnhancedBody enhanced)
                 post_config ;
           sessionStorage_removeItem storage_key ;;
           let redirectUri := obj_get stored "redirect_uri" in
           emit (Navigate ("/payment?redirect_uri="
                           +:+ encodeURIComponent
                                 (or_default redirectUri EmptyString)))
     | _, _ =>
         setError (Some "Failed to authenticate with Google") ;;
         setIsLoading false
     end)
    (fun err =>
       setError (Some (callback_failure err)) ;;
       setIsLoading false).

Definition handleLogin (env : Env) : Handler unit :=
  fun w =>
    match oauthParams (component w) with
    | None => setError (Some "No OAuth parameters found") w
    | Some p =>
        (setIsLoading true ;;
         setError None ;;
         try_catch
           (sessionStorage_setItem storage_key
              (JSON_stringify (Object_entries p)) ;;
            authError ← supabase_signInWithOAuth env
                          (signIn_options (browser env)) ;
            match authError with
            | Some authError_message =>
                setError (Some ("Login failed: " +:+ authError_message)) ;;
                setIsLoading false
            | None => ret tt
            end)
           (fun _ =>
              setError (Some "An unexpected error occurred during login") ;;
              setIsLoading false)) w
    end.

Definition strict_eq (v : option string) (s : string) : bool :=
  match v with
  | Some x => String.eqb x s
  | None => false
  end.

(** The mount effect, run once with the page's path and query string. *)
Definition useEffect (env : Env) (currentPath search : string)
  : Handler unit :=
  let urlParams := URLSearchParams_new search in
  let callback_route : Handler unit :=
    if String.eqb currentPath "/auth/callback"
    then handleSupabaseCallback env else ret tt in
  if String.eqb currentPath "/authorize" then
    let params :=
      {| client_id := URLSearchParams_get urlParams "client_id";
         redirect_uri := URLSearchParams_get urlParams "redirect_uri";
         response_type := URLSearchParams_get urlParams "response_type";
         state := URLSearchParams_get urlParams "state";
         code_challenge := URLSearchParams_get urlParams "code_challenge";
         code_challenge_method :=
           URLSearchParams_get urlParams "code_challenge_method";
         scope := URLSearchParams_get urlParams "scope" |} in
    if negb (truthy (client_id params))
       || negb (truthy (redirect_uri params))
       || negb (strict_eq (response_type params) "code")
    then setError (Some "Invalid OAuth request: Missing required parameters")
    else setOauthParams (Some params) ;; callback_route
  else callback_route.

(** The [onClick] of the error view's Go Back button. *)
Definition goBack : Handler unit :=
  setError None ;;
  sessionStorage_removeItem storage_key ;;
  emit (LocationHref "/").

(** What the component renders. *)
Inductive View : Type :=
| ErrorView (msg : string)
| ProcessingView
| AuthorizeView (details : option OAuthParams) (button_disabled : bool)
| DefaultView (path : string).

Definition render (c : Component) (currentPath : string) : View :=
  match error c with
  | Some (String a r) => ErrorView (String a r)
  | _ =>
      if String.eqb currentPath "/auth/callback" then ProcessingView
      else if String.eqb currentPath "/authorize" then
        AuthorizeView (oauthParams c)
          (isLoading c || negb (bool_decide (is_Some (oauthParams c))))
      else DefaultView currentPath
  end.

(** A page load: the tab's [sessionStorage] survives, the component starts
    from its initial state and the mount effect runs. *)
Definition mount (env : Env) (currentPath search : string)
    (storage : gmap string string) : Settled unit * World :=
  useEffect env currentPath search
    {| component := initial; sessionStorage := storage; trace := [] |}.

(** ** [Payment] *)

(** A parsed JSON value, as [res.json()] resolves to. *)
#[warnings="-register-all"] Inductive Json : Type :=
| JNull
| JBool (b : bool)
| JNumber (literal : string)
| JString (s : string)
| JArray (items : list Json)
| JObject (members : list (string * Json)).

Fixpoint member (k : string) (members : list (string * Json)) : option Json :=
  match members with
  | [] => None
  | (k', v) :: rest => if String.eqb k' k then Some v else member k rest
  end.

(** The property read [data.status]: reading a property of [null] throws a
    TypeError, a primitive or an array has no such property. *)
Definition data_status (d : Json) : Settled (option Json) :=
  match d with
  | JNull => Rejected OtherError
  | JObject members => Fulfilled (member "status" members)
  | _ => Fulfilled None
  end.

(** [v === 'success'] *)
Definition is_success (v : option Json) : bool :=
  match v with
  | Some (JString s) => String.eqb s "success"
  | _ => false
  end.

(** How the verification request ends: [fetch] rejects, or a response
    arrives whose body is not JSON ([res.json()] rejects), or the body
    parses.  The rejections carry the error's text. *)
Inductive VerifyOutcome : Type :=
| FetchFailed (err : string)
| BodyNotJson (err : string)
| BodyJson (d : Json).

(** The text of the TypeError raised by reading [status] of [null]. *)
Definition null_status_error : string :=
  "TypeError: Cannot read properties of null (reading 'status')".

(** What the checkout widget hands to [handler] on success. *)
Record RazorpayResponse : Type := mkRazorpayResponse {
  response_payment_id : option string;
  response_signature : option string
}.

Section Payment.
(** The props and the page's query string. *)
Variables (amount_prop : Z) (currency_prop user_email : string).
Variable search : string.

Definition redirectUri : string :=
  or_default (URLSearchParams_get (URLSearchParams_new search)
                "redirect_uri") EmptyString.

(** The [.then(data => ...)] and [.catch(err => ...)] ends of the chain,
    for a target that the location accepts (see [on_verified_by] for one
    that it refuses). *)
Definition on_verified (o : VerifyOutcome) : Effect :=
  match o with
  | FetchFailed err => Alert ("Payment verification failed: " +:+ err)
  | BodyNotJson err => Alert ("Payment verification failed: " +:+ err)
  | BodyJson d =>
      match data_status d with
      | Fulfilled st =>
          if is_success st then LocationHref redirectUri
          else Alert "Payment verification failed"
      | Rejected _ =>
          Alert ("Payment verification failed: " +:+ null_status_error)
      end
  end.

(** [options.handler]: the effects of one checkout success callback. *)
Definition handler (verify : string -> VerifyBody -> VerifyOutcome)
    (response : RazorpayResponse) : list Effect :=
  let body :=
    {| razorpay_payment_id := response_payment_id response;
       razorpay_signature :=
         or_default (response_signature response) "no-signature" |} in
  [FetchVerify "/payment/verify" body;
   on_verified (verify "/payment/verify" body)].

Definition handlePayment : list Effect :=
  [OpenCheckout
     {| amount := amount_prop;
        currency := currency_prop;
        checkout_name := "GA4 Claude Extension";
        description := "Access Google Analytics 4 in Claude";
        prefill_email := user_email;
        retry_enabled := true;
        retry_max_count := 3 |}].

Definition handleBackToHome : list Effect := [LocationHref "/"].
End Payment.

(** The [href] setter of [window.location] parses the assigned text as a
    URL against the page's own URL and throws a SyntaxError when that
    fails (as for [//] or [http://]).  [accepts] is the parser's verdict on
    a text, [href_error] the exception it throws for a refused text, as
    text (the browser may quote the refused text in it). *)
Record LocationSetter : Type := mkLocationSetter {
  accepts : string -> bool;
  href_error : string -> string
}.

(** The ends of the verification chain with the setter taken into
    account: an assignment that throws inside [.then] is caught by the
    chain's [.catch], which alerts. *)
Definition on_verified_by (l : LocationSetter) (search : string)
    (o : VerifyOutcome) : Effect :=
  match on_verified search o with
  | LocationHref href =>
      if accepts l href then LocationHref href
      else Alert ("Payment verification failed: " +:+ href_error l href)
  | e => e
  end.

(** [options.handler], with the setter taken into account. *)
Definition handler_by (l : LocationSetter) (search : string)
    (verify : string -> VerifyBody -> VerifyOutcome)
    (response : RazorpayResponse) : list Effect :=
  let body :=
    {| razorpay_payment_id := response_payment_id response;
       razorpay_signature :=
         or_default (response_signature response) "no-signature" |} in
  [FetchVerify "/payment/verify" body;
   on_verified_by l search (verify "/payment/verify" body)].

(** ** [App]: the routes *)

Inductive Page : Type :=
| OAuthGoogle_page
| Payment_page (amount_prop : Z) (currency_prop user_email : string).

Definition lower (c : ascii) : ascii :=
  let n := N_of_ascii c in
  if ((65 <=? n) && (n <=? 90))%N then ascii_of_N (n + 32) else c.

Fixpoint lowercase (s : string) : string :=
  match s with
  | EmptyString => EmptyString
  | String c r => String (lower c) (lowercase r)
  end.

Fixpoint drop_trailing_slashes (s : string) : string :=
  match s with
  | EmptyString => EmptyString
  | String c r =>
      match drop_trailing_slashes r with
      | EmptyString =>
          if (N_of_ascii c =? 47)%N then EmptyString else str1 c
      | r' => String c r'
      end
  end.

(** A route of the router matches a pathname whatever the case of its
    letters and with any number of slashes at its end. *)
Definition route_matches (route path : string) : bool :=
  String.eqb (lowercase (drop_trailing_slashes path)) route.

Definition App (path : string) : option Page :=
  if route_matches "/authorize" path then Some OAuthGoogle_page
  else if route_matches "/auth/callback" path then Some OAuthGoogle_page
  else if route_matches "/payment" path
  then Some (Payment_page 100 "INR" "user@example.com")
  else None.

(** ** [OAuthGoogle], earlier revision

    The copy of the component that predates the payment page: no scopes on
    the sign-in call, the bare session as POST body, the backend's
    [redirectUrl] as next location, and a Go Back button that leaves the
    storage alone.  Its mount effect and its two gates are those of the
    current revision. *)
Module Earlier.

Definition signIn_options (b : Browser) : SignInOptions :=
  {| provider := "google";
     redirectTo := location_origin b +:+ "/auth/callback";
     scopes := None;
     queryParams := [] |}.

Definition post_config : PostConfig :=
  {| headers := [("Content-Type", "application/json")]; timeout := 10000 |}.

Definition callback_failure (e : Thrown) : string :=
  match e with
  | AxiosError response err_message =>
      "Authentication failed: " +:+
      or_default
        (match response with
         | Some r => match data r with Some d => message d | None => None end
         | None => None
         end) err_message
  | OtherError => "An unexpected error occurred during authentication"
  end.

Definition default_origin : string := "http://localhost:3000".

(** [VITE_BACKEND_URL] is a build-time setting, and so is what
    [new URL('/callback', backendUrl)] makes of
    [VITE_BACKEND_URL || 'http://localhost:3000']: [backend_origin] is the
    scheme and authority of that text as the URL parser serializes them
    ([default_origin] when the setting is absent or empty), and [None] when
    the text is not an absolute URL, for which [new URL] throws.  The
    [redirectUrl] of the response is assigned to [window.location.href],
    which throws on a text it cannot parse. *)
Definition handleSupabaseCallback (backend_origin : option string)
    (setter : LocationSetter) (env : Env) : Handler unit :=
  setIsLoading true ;;
  setError None ;;
  try_catch
    (r ← await (getSession env) ;
     match sessionError r, data_session r with
     | None, Some session =>
         storedParams ← sessionStorage_getItem storage_key ;
         if negb (truthy storedParams) then
           setError (Some "OAuth session expired. Please try again.") ;;
           setIsLoading false
         else
           stored ← JSON_parse_or_throw
                      (or_default storedParams EmptyString) ;
           base ← match backend_origin with
                  | Some origin => ret origin
                  | None => throw OtherError
                  end ;
           let url := callbackUrl base stored in
           response ← axios_post env (URL_toString url)
                        (SessionBody session) post_config ;
           sessionStorage_removeItem storage_key ;;
           match data response with
           | Some {| redirectUrl := Some (String c r) |} =>
               if accepts setter (String c r)
               then emit (LocationHref (String c r))
               else throw OtherError
           | _ => ret tt
           end
     | _, _ =>
         setError (Some "Failed to authenticate with Google") ;;
         setIsLoading false
     end)
    (fun err =>
       setError (Some (callback_failure err)) ;;
       setIsLoading false).

Definition handleLogin (env : Env) : Handler unit :=
  fun w =>
    match oauthParams (component w) with
    | None => setError (Some "No OAuth parameters found") w
    | Some p =>
        (setIsLoading true ;;
         setError None ;;
         try_catch
           (sessionStorage_setItem storage_key
              (JSON_stringify (Object_entries p)) ;;
            authError ← supabase_signInWithOAuth env
                          (signIn_options (browser env)) ;
            match authError with
            | Some authError_message =>
                setError (Some ("Login failed: " +:+ authError_message)) ;;
                setIsLoading false
            | None => ret tt
            end)
           (fun _ =>
              setError (Some "An unexpected error occurred during login") ;;
              setIsLoading false)) w
    end.

Definition goBack : Handler unit :=
  setError None ;;
  emit (LocationHref "/").

End Earlier.

(** ** Vocabulary of the statements *)

(** One property assignment, as the parser performs it. *)
Definition assign (acc : JsObject) (kv : string * option string) : JsObject :=
  obj_set acc (fst kv) (snd kv).

Fixpoint string_forall (P : ascii -> bool) (s : string) : bool :=
  match s with
  | EmptyString => true
  | String c r => P c && string_forall P r
  end.

Definition absent (sep : ascii) (s : string) : bool :=
  string_forall (fun c => negb (Ascii.eqb c sep)) s.

(** None of the characters that structure a query string or a location:
    [# & = ?]. *)
Definition no_delimiter (c : ascii) : bool :=
  let n := N_of_ascii c in
  negb ((n =? 35) || (n =? 38) || (n =? 61) || (n =? 63))%N.

(** The same, and not [+] either. *)
Definition plain (c : ascii) : bool :=
  no_delimiter c && negb (N_of_ascii c =? 43)%N.

(** A member echoed as a query parameter: only one with a non-empty
    string value. *)
Definition echo (kv : string * option string) : option (string * string) :=
  match snd kv with
  | Some (String c r) => Some (fst kv, String c r)
  | _ => None
  end.

(** The non-empty fields of a request, each under its own name, in the
    order of the interface. *)
Definition non_empty_fields (p : OAuthParams) : list (string * string) :=
  omap echo (Object_entries p).

(** The verification response's [status] field is the string [success]. *)
Definition status_is_success (o : VerifyOutcome) : bool :=
  match o with
  | BodyJson (JObject members) =>
      match member "status" members with
      | Some (JString s) => String.eqb s "success"
      | _ => false
      end
  | _ => false
  end.

Definition is_SetItem (e : Effect) : bool :=
  match e with SetItem _ _ => true | _ => false end.

(** What the user can do on the page. *)
Inductive Click : Type :=
| ClickSignIn (env : Env)
| ClickGoBack.

Definition click (a : Click) (w : World) : World :=
  match a with
  | ClickSignIn env => snd (handleLogin env w)
  | ClickGoBack => snd (goBack w)
  end.

Definition clicks (l : list Click) (w : World) : World :=
  fold_left (fun w a => click a w) l w.

(** A session as [getSession] reports it once sign-in has succeeded. *)
Definition established (env : Env) (s : Session.t) : Prop :=
  getSession env
  = Fulfilled {| data_session := Some s; sessionError := None |}.

(** The world after a handler has stopped with a message: the loading flag
    is down, the message is up, storage and trace are as they were. *)
Definition stopped (w : World) (msg : string) : World :=
  {| component := {| isLoading := false;
                     oauthParams := oauthParams (component w);
                     error := Some msg |};
     sessionStorage := sessionStorage w;
     trace := trace w |}.

(** The world after the callback page's POST was rejected: as [stopped],
    with the POST on the trace. *)
Definition post_failed (w : World) (p : Effect) (msg : string) : World :=
  {| component := {| isLoading := false;
                     oauthParams := oauthParams (component w);
                     error := Some msg |};
     sessionStorage := sessionStorage w;
     trace := (trace w ++ [p])%list |}.

(** The world after the callback page has handed over to the payment
    page. *)
Definition forwarded (w : World) (p : Effect) (target : string) : World :=
  {| component := {| isLoading := true;
                     oauthParams := oauthParams (component w);
                     error := None |};
     sessionStorage := delete storage_key (sessionStorage w);
     trace := (trace w ++ [p; RemoveItem storage_key;
                          Navigate ("/payment?redirect_uri="
                                    +:+ encodeURIComponent target)])%list |}.

(** The POST of the callback page for a session and a stored object. *)
Definition callback_post (env : Env) (s : Session.t) (stored : JsObject)
  : Effect :=
  Post (URL_toString (callbackUrl backendUrl stored))
       (EnhancedBody (enhancedSessionData (browser env) s))
       post_config.

Definition callback_transport (env : Env) (s : Session.t) (stored : JsObject)
  : Transport :=
  backend env (URL_toString (callbackUrl backendUrl stored))
          (EnhancedBody (enhancedSessionData (browser env) s)).

(** ** Sample data *)

Definition sample_browser : Browser :=
  {| location_origin := "https://auth.example";
     now_ISO := "2025-01-01T00:00:00.000Z";
     navigator_userAgent := "Mozilla/5.0";
     screen_width := 1920;
     screen_height := 1080;
     resolved_timeZone := "Asia/Kolkata";
     navigator_language := "en-IN";
     document_referrer := EmptyString |}.

Definition sample_session : Session.t :=
  {| Session.provider_token := Some "ya29.token";
     Session.provider_refresh_token := Some "1//refresh";
     Session.expires_in := 3599;
     Session.token_type := "bearer";
     Session.user :=
       {| User.id := "user-1";
          User.email := Some "user@example.com";
          User.user_metadata :=
            {| UserMetadata.provider_id := Some "1234567890";
               UserMetadata.full_name := Some "A User";
               UserMetadata.name := None;
               UserMetadata.avatar_url := None;
               UserMetadata.picture := Some "https://img.example/a.png";
               UserMetadata.email_verified := Some true;
               UserMetadata.locale := None;
               UserMetadata.custom_claims_hd := None |} |} |}.

(** The request of the query string
    [?client_id=abc&redirect_uri=https://x.test/done&response_type=code]. *)
Definition sample_request : OAuthParams :=
  {| client_id := Some "abc";
     redirect_uri := Some "https://x.test/done";
     response_type := Some "code";
     state := None;
     code_challenge := None;
     code_challenge_method := None;
     scope := None |}.

(** A world in which sign-in has succeeded, the provider granted every
    scope the login asked for, and the backend answers every POST the
    same way. *)
Definition sample_env (answer : Transport) : Env :=
  {| browser := sample_browser;
     getSession :=
       Fulfilled {| data_session := Some sample_session;
                    sessionError := None |};
     signInWithOAuth := fun _ => Fulfilled None;
     backend := fun _ _ => answer;
     granted_scope := login_scopes |}.

(** The same world before any sign-in: no session. *)
Definition signed_out_env : Env :=
  {| browser := sample_browser;
     getSession :=
       Fulfilled {| data_session := None; sessionError := None |};
     signInWithOAuth := fun _ => Fulfilled None;
     backend := fun _ _ => NoResponse "Network Error";
     granted_scope := EmptyString |}.

Definition ok_response : HttpResponse :=
  {| status := 200;
     data := Some {| success := true; message := None;
                     redirectUrl := None |} |}.

Definition unauthorized_response : HttpResponse :=
  {| status := 401;
     data := Some {| success := false; message := Some "invalid client";
                     redirectUrl := None |} |}.

(** The storage of a tab in which the login button was pressed for
    [sample_request]. *)
Definition sample_storage : gmap string string :=
  <[storage_key := JSON_stringify (Object_entries sample_request)]> ∅.

Definition sample_world : World :=
  {| component := {| isLoading := false;
                     oauthParams := Some sample_request;
                     error := None |};
     sessionStorage := ∅;
     trace := [] |}.

Definition sample_payment : RazorpayResponse :=
  {| response_payment_id := Some "pay_123";
     response_signature := Some "sig" |}.

(** The sample world, except that at the consent screen the user granted
    the basic scopes only. *)
Definition declined_env (answer : Transport) : Env :=
  {| browser := sample_browser;
     getSession :=
       Fulfilled {| data_session := Some sample_session;
                    sessionError := None |};
     signInWithOAuth := fun _ => Fulfilled None;
     backend := fun _ _ => answer;
     granted_scope := "openid email profile" |}.

(** Unfolds the handler combinators, leaving the data of the run. *)
Ltac run_handler :=
  cbv [mbind Handler_bind bind try_catch await ret throw emit update
       setIsLoading setError setOauthParams sessionStorage_getItem
       sessionStorage_setItem sessionStorage_removeItem axios_post
       supabase_signInWithOAuth JSON_parse_or_throw
       component sessionStorage trace isLoading oauthParams error].

(** ** Vocabulary of the further properties *)

(** The request a query string denotes: for each of the seven names the
    first value of that name. *)
Definition captured (search : string) : OAuthParams :=
  let q := URLSearchParams_new search in
  {| client_id := URLSearchParams_get q "client_id";
     redirect_uri := URLSearchParams_get q "redirect_uri";
     response_type := URLSearchParams_get q "response_type";
     state := URLSearchParams_get q "state";
     code_challenge := URLSearchParams_get q "code_challenge";
     code_challenge_method := URLSearchParams_get q "code_challenge_method";
     scope := URLSearchParams_get q "scope" |}.

(** The check of the authorize page on a request. *)
Definition acceptable (p : OAuthParams) : bool :=
  truthy (client_id p) && truthy (redirect_uri p)
  && strict_eq (response_type p) "code".

(** No field is present and empty. *)
Definition no_empty_field (p : OAuthParams) : bool :=
  forallb (fun kv : string * option string =>
             match snd kv with
             | Some EmptyString => false
             | _ => true
             end)
          (Object_entries p).

Definition is_Post (e : Effect) : bool :=
  match e with Post _ _ _ => true | _ => false end.

(** The world of a page that has just been loaded. *)
Definition loaded (storage : gmap string string) : World :=
  {| component := initial; sessionStorage := storage; trace := [] |}.

(** The body of the verification request for a checkout response. *)
Definition verify_body (response : RazorpayResponse) : VerifyBody :=
  {| razorpay_payment_id := response_payment_id response;
     razorpay_signature :=
       or_default (response_signature response) "no-signature" |}.

(** The signed-out world, with a provider that refuses the sign-in. *)
Definition refusing_env : Env :=
  {| browser := sample_browser;
     getSession :=
       Fulfilled {| data_session := None; sessionError := None |};
     signInWithOAuth := fun _ => Fulfilled (Some "access_denied");
     backend := fun _ _ => NoResponse "Network Error";
     granted_scope := EmptyString |}.

(** A world in which the session lookup itself fails. *)
Definition throwing_env : Env :=
  {| browser := sample_browser;
     getSession := Rejected OtherError;
     signInWithOAuth := fun _ => Fulfilled None;
     backend := fun _ _ => NoResponse "Network Error";
     granted_scope := EmptyString |}.


(** A storage as the component leaves it: no entry, or the text the login
    button wrote for some request. *)
Definition written_by_login (storage : gmap string string) : Prop :=
  storage !! storage_key = None
  \/ exists p, storage !! storage_key
               = Some (JSON_stringify (Object_entries p)).


(** A location that takes every absolute [http] or [https] text of the
    samples and refuses [//]. *)
Definition sample_setter : LocationSetter :=
  {| accepts := fun href => negb (String.eqb href "//");
     href_error := fun href => "SyntaxError: Invalid URL: " +:+ href |}.

Definition redirecting_response : HttpResponse :=
  {| status := 200;
     data := Some {| success := true; message := None;
                     redirectUrl := Some "https://x.test/done?code=1" |} |}.

(** The world of the callback page's POST in the earlier revision. *)
Definition earlier_post (origin : string) (s : Session.t) (stored : JsObject)
  : Effect :=
  Post (URL_toString (callbackUrl origin stored)) (SessionBody s)
       Earlier.post_config.

(** What the earlier revision does after an accepted POST, besides
    removing the entry: the location it sets, if any. *)
Definition earlier_follow (setter : LocationSetter) (r : HttpResponse)
  : list Effect :=
  match data r with
  | Some {| redirectUrl := Some (String c u) |} =>
      if accepts setter (String c u) then [LocationHref (String c u)] else []
  | _ => []
  end.

(** The error it ends with after an accepted POST: none, unless the
    location refuses the backend's [redirectUrl]. *)
Definition earlier_follow_error (setter : LocationSetter) (r : HttpResponse)
  : option string :=
  match data r with
  | Some {| redirectUrl := Some (String c u) |} =>
      if accepts setter (String c u) then None
      else Some "An unexpected error occurred during authentication"
  | _ => None
  end.

(** * Properties *)

(** ** Strings *)

Lemma append_assoc (a b c : string) : (a +:+ b) +:+ c = a +:+ (b +:+ c).
Proof. induction a as [|x a IH]; simpl; [reflexivity | now rewrite IH]. Qed.

Lemma length_append (a b : string) :
  String.length (a +:+ b) = String.length a + String.length b.
Proof. induction a as [|x a IH]; simpl; [reflexivity | now rewrite IH]. Qed.

(** ** JSON: what [JSON.stringify] writes, [JSON.parse] reads back *)

Lemma parse_quote_char (c : ascii) (rest : string) :
  parse_string_body (JSON_quote_char c +:+ rest)
  = prepend (str1 c) (parse_string_body rest).
Proof. destruct c as [[] [] [] [] [] [] [] []]; reflexivity. Qed.

Lemma parse_quote_body (s rest : string) :
  parse_string_body (JSON_quote_body s +:+ String dquote rest)
  = Some (s, rest).
Proof.
  induction s as [|c s IH]; [reflexivity|].
  cbn [JSON_quote_body]. rewrite append_assoc, parse_quote_char, IH.
  reflexivity.
Qed.

Lemma JSON_quote_append (s rest : string) :
  JSON_quote s +:+ rest
  = String dquote (JSON_quote_body s +:+ String dquote rest).
Proof. unfold JSON_quote. cbn [append]. now rewrite append_assoc. Qed.

Lemma parse_value_JSON_value (v : option string) (rest : string) :
  parse_value (skip_ws (JSON_value v +:+ rest)) = Some (v, rest).
Proof.
  destruct v as [s|]; [|reflexivity].
  cbn [JSON_value]. rewrite JSON_quote_append.
  change (skip_ws (String dquote ?x)) with (String dquote x).
  cbn [parse_value]. change (N_of_ascii dquote =? 34)%N with true.
  cbn iota. now rewrite parse_quote_body.
Qed.

Lemma parse_member (fuel : nat) (kv : string * option string)
    (rest : string) (acc : JsObject) :
  parse_members (S fuel) (JSON_member kv +:+ rest) acc
  = match skip_ws rest with
    | String "," r4 => parse_members fuel r4 (assign acc kv)
    | String "}" r4 =>
        if is_empty (skip_ws r4) then Some (assign acc kv) else None
    | _ => None
    end.
Proof.
  unfold JSON_member. rewrite !append_assoc, JSON_quote_append.
  cbn [parse_members].
  change (skip_ws (String dquote ?x)) with (String dquote x).
  cbn iota. change (N_of_ascii dquote =? 34)%N with true. cbn iota.
  rewrite parse_quote_body.
  change (skip_ws (":" +:+ ?x)) with (String ":" x).
  cbn iota. rewrite parse_value_JSON_value. reflexivity.
Qed.

Lemma parse_JSON_members (o : JsObject) :
  forall (fuel : nat) (acc : JsObject),
    o <> [] -> length o <= fuel ->
    parse_members fuel (JSON_members o +:+ "}") acc
    = Some (fold_left assign o acc).
Proof.
  induction o as [|kv o IH]; intros fuel acc Hne Hlen; [congruence|].
  destruct fuel as [|fuel]; [simpl in Hlen; lia|].
  destruct o as [|kv' o].
  - cbn [JSON_members]. rewrite parse_member. reflexivity.
  - change (JSON_members (kv :: kv' :: o))
      with (JSON_member kv +:+ "," +:+ JSON_members (kv' :: o)).
    rewrite !append_assoc, parse_member.
    change (skip_ws ("," +:+ ?x)) with (String "," x). cbn iota.
    rewrite IH; [reflexivity | congruence | simpl in *; lia].
Qed.

Lemma length_JSON_members (o : JsObject) :
  length o <= String.length (JSON_members o).
Proof.
  induction o as [|kv o IH]; [simpl; lia|].
  assert (Hm : 1 <= String.length (JSON_member kv)).
  { unfold JSON_member, JSON_quote. simpl. lia. }
  destruct o as [|kv' o]; [simpl in *; lia|].
  change (JSON_members (kv :: kv' :: o))
    with (JSON_member kv +:+ "," +:+ JSON_members (kv' :: o)).
  rewrite !length_append. simpl length in *. lia.
Qed.

Lemma obj_set_fresh (acc : JsObject) (k : string) (v : option string) :
  ~ In k (map fst acc) -> obj_set acc k v = (acc ++ [(k, v)])%list.
Proof.
  induction acc as [|[k' v'] acc IH]; intros Hk; [reflexivity|].
  simpl in *. destruct (String.eqb_spec k' k) as [->|Hne].
  - exfalso. apply Hk. now left.
  - rewrite IH; [reflexivity | tauto].
Qed.

Lemma fold_assign_fresh (o : JsObject) :
  forall acc, List.NoDup (map fst (acc ++ o)%list) ->
              fold_left assign o acc = (acc ++ o)%list.
Proof.
  induction o as [|[k v] o IH]; intros acc Hnd; simpl.
  - now rewrite app_nil_r.
  - unfold assign at 2. simpl fst; simpl snd.
    rewrite obj_set_fresh.
    + rewrite IH; rewrite <- app_assoc; [reflexivity | exact Hnd].
    + rewrite map_app in Hnd. simpl in Hnd.
      apply List.NoDup_remove_2 in Hnd. intros Hin. apply Hnd.
      apply in_or_app. now left.
Qed.

(** A flat object with distinct keys survives [JSON.stringify] followed by
    [JSON.parse]. *)
Lemma JSON_parse_stringify (o : JsObject) :
  List.NoDup (map fst o) -> JSON_parse (JSON_stringify o) = Some o.
Proof.
  intros Hnd. destruct o as [|kv o]; [reflexivity|].
  unfold JSON_parse, JSON_stringify.
  change (skip_ws ("{" +:+ ?x)) with (String "{" x). cbn iota.
  assert (Hhead : exists c r,
             JSON_members (kv :: o) +:+ "}" = String dquote r /\ c = dquote).
  { exists dquote. destruct o; cbn [JSON_members];
      unfold JSON_member; rewrite ?append_assoc, JSON_quote_append; eauto. }
  destruct Hhead as (c & r & Hr & _).
  rewrite Hr. change (skip_ws (String dquote r)) with (String dquote r).
  cbn iota. rewrite <- Hr.
  rewrite parse_JSON_members.
  - now rewrite (fold_assign_fresh (kv :: o) []).
  - congruence.
  - pose proof (length_JSON_members (kv :: o)).
    cbn [String.length append]. rewrite length_append. lia.
Qed.

Lemma JSON_stringify_truthy (o : JsObject) :
  truthy (Some (JSON_stringify o)) = true.
Proof. reflexivity. Qed.

Lemma NoDup_Object_entries (p : OAuthParams) :
  List.NoDup (map fst (Object_entries p)).
Proof.
  cbn. repeat constructor; cbn; intuition discriminate.
Qed.

Lemma as_OAuthParams_entries (p : OAuthParams) :
  as_OAuthParams (Object_entries p) = p.
Proof. destruct p; reflexivity. Qed.

(** ** URL encoding: what the encoders write, the parsers read back *)

Lemma string_forall_append (P : ascii -> bool) (a b : string) :
  string_forall P (a +:+ b) = string_forall P a && string_forall P b.
Proof.
  induction a as [|x a IH]; simpl; [reflexivity|].
  now rewrite IH, andb_assoc.
Qed.

Lemma string_forall_impl (P Q : ascii -> bool) (s : string) :
  (forall c, P c = true -> Q c = true) ->
  string_forall P s = true -> string_forall Q s = true.
Proof.
  intros HPQ. induction s as [|c s IH]; [reflexivity|]. simpl.
  intros [Hc Hs]%andb_true_iff. now rewrite (HPQ c Hc), IH.
Qed.

Lemma no_delimiter_absent (sep : ascii) (s : string) :
  no_delimiter sep = false ->
  string_forall no_delimiter s = true -> absent sep s = true.
Proof.
  intros Hsep. apply string_forall_impl. intros c Hc.
  destruct (Ascii.eqb_spec c sep) as [->|]; [congruence | reflexivity].
Qed.

Lemma plain_no_delimiter (s : string) :
  string_forall plain s = true -> string_forall no_delimiter s = true.
Proof.
  apply string_forall_impl. unfold plain.
  now intros c [H _]%andb_true_iff.
Qed.

Lemma encodeURIComponent_char_plain (c : ascii) :
  string_forall plain (encodeURIComponent_char c) = true.
Proof. destruct c as [[] [] [] [] [] [] [] []]; reflexivity. Qed.

Lemma encodeURIComponent_plain (s : string) :
  string_forall plain (encodeURIComponent s) = true.
Proof.
  induction s as [|c s IH]; [reflexivity|].
  cbn [encodeURIComponent]. rewrite string_forall_append, IH, andb_true_r.
  apply encodeURIComponent_char_plain.
Qed.

Lemma form_encode_char_no_delimiter (c : ascii) :
  string_forall no_delimiter (form_encode_char c) = true.
Proof. destruct c as [[] [] [] [] [] [] [] []]; reflexivity. Qed.

Lemma form_encode_no_delimiter (s : string) :
  string_forall no_delimiter (form_encode s) = true.
Proof.
  induction s as [|c s IH]; [reflexivity|].
  cbn [form_encode]. rewrite string_forall_append, IH, andb_true_r.
  apply form_encode_char_no_delimiter.
Qed.

Lemma percent_decode_encoded_char (c : ascii) (rest : string) :
  percent_decode (encodeURIComponent_char c +:+ rest)
  = String c (percent_decode rest).
Proof. destruct c as [[] [] [] [] [] [] [] []]; reflexivity. Qed.

Lemma percent_decode_encodeURIComponent (s : string) :
  percent_decode (encodeURIComponent s) = s.
Proof.
  induction s as [|c s IH]; [reflexivity|].
  cbn [encodeURIComponent].
  now rewrite percent_decode_encoded_char, IH.
Qed.

Lemma plus_to_space_plain (s : string) :
  string_forall plain s = true -> plus_to_space s = s.
Proof.
  induction s as [|c s IH]; [reflexivity|]. cbn [string_forall plus_to_space].
  intros [Hc Hs]%andb_true_iff. rewrite (IH Hs). f_equal.
  destruct (N.eqb_spec (N_of_ascii c) 43) as [E|]; [|reflexivity].
  unfold plain in Hc. rewrite E, andb_false_r in Hc. discriminate.
Qed.

Lemma form_decode_encodeURIComponent (s : string) :
  form_decode (encodeURIComponent s) = s.
Proof.
  unfold form_decode.
  rewrite plus_to_space_plain by apply encodeURIComponent_plain.
  apply percent_decode_encodeURIComponent.
Qed.

Lemma plus_to_space_append (a b : string) :
  plus_to_space (a +:+ b) = plus_to_space a +:+ plus_to_space b.
Proof. induction a as [|x a IH]; simpl; [reflexivity | now rewrite IH]. Qed.

Lemma form_decode_encoded_char (c : ascii) (rest : string) :
  percent_decode (plus_to_space (form_encode_char c) +:+ rest)
  = String c (percent_decode rest).
Proof. destruct c as [[] [] [] [] [] [] [] []]; reflexivity. Qed.

Lemma form_decode_form_encode (s : string) :
  form_decode (form_encode s) = s.
Proof.
  unfold form_decode. induction s as [|c s IH]; [reflexivity|].
  cbn [form_encode].
  now rewrite plus_to_space_append, form_decode_encoded_char, IH.
Qed.

Lemma split_on_absent (sep : ascii) (s : string) :
  absent sep s = true -> split_on sep s = [s].
Proof.
  unfold absent. induction s as [|c s IH]; [reflexivity|].
  cbn [string_forall split_on].
  intros [Hc Hs]%andb_true_iff. rewrite (IH Hs).
  now destruct (Ascii.eqb c sep).
Qed.

Lemma split_on_append (sep : ascii) (a b : string) :
  absent sep a = true ->
  split_on sep (a +:+ String sep b) = a :: split_on sep b.
Proof.
  unfold absent. induction a as [|c a IH]; cbn [string_forall append split_on].
  - intros _. now rewrite Ascii.eqb_refl.
  - intros [Hc Ha]%andb_true_iff. rewrite (IH Ha).
    now destruct (Ascii.eqb c sep).
Qed.

Lemma cut_at_equals_append (n v : string) :
  absent "=" n = true -> cut_at_equals (n +:+ String "=" v) = (n, v).
Proof.
  unfold absent. induction n as [|c n IH];
    cbn [string_forall append cut_at_equals]; [reflexivity|].
  intros [Hc Hn]%andb_true_iff. rewrite (IH Hn).
  destruct (N.eqb_spec (N_of_ascii c) 61) as [E|]; [|reflexivity].
  rewrite <- (ascii_N_embedding c), E in Hc. discriminate.
Qed.

Lemma cut_before_absent (sep : ascii) (s : string) :
  absent sep s = true -> cut_before sep s = (s, EmptyString).
Proof.
  unfold absent. induction s as [|c s IH]; [reflexivity|].
  cbn [string_forall cut_before].
  intros [Hc Hs]%andb_true_iff. rewrite (IH Hs).
  now destruct (Ascii.eqb c sep).
Qed.

Lemma is_empty_pair (n rest : string) :
  is_empty (n +:+ "=" +:+ rest) = false.
Proof. now destruct n. Qed.

(** One [name=value] sequence decodes to the pair it was written from. *)
Lemma parse_pair (n v : string) :
  (let '(n', v') := cut_at_equals (form_encode n +:+ "=" +:+ form_encode v) in
   (form_decode n', form_decode v')) = (n, v).
Proof.
  change ("=" +:+ form_encode v) with (String "=" (form_encode v)).
  rewrite cut_at_equals_append.
  - now rewrite !form_decode_form_encode.
  - apply no_delimiter_absent; [reflexivity | apply form_encode_no_delimiter].
Qed.

(** A serialized query parses back to the pairs it was written from. *)
Lemma parse_query_toString (q : URLSearchParams) :
  parse_query (URLSearchParams_toString q) = q.
Proof.
  unfold parse_query.
  induction q as [|[n v] q IH]; [reflexivity|].
  assert (Hamp : forall s, absent "&" (form_encode n +:+ "=" +:+ form_encode s)
                           = true).
  { intros s. unfold absent. rewrite !string_forall_append.
    fold (absent "&" (form_encode n)). fold (absent "&" (form_encode s)).
    now rewrite !(no_delimiter_absent "&" _ eq_refl)
      by apply form_encode_no_delimiter. }
  destruct q as [|[n' v'] q].
  - cbn [URLSearchParams_toString].
    rewrite split_on_absent by apply Hamp.
    cbn [List.filter]. rewrite is_empty_pair. cbn [negb map].
    now rewrite parse_pair.
  - change (URLSearchParams_toString ((n, v) :: (n', v') :: q))
      with (form_encode n +:+ "=" +:+ form_encode v +:+ "&"
            +:+ URLSearchParams_toString ((n', v') :: q)).
    replace (form_encode n +:+ "=" +:+ form_encode v +:+ "&"
             +:+ URLSearchParams_toString ((n', v') :: q))
      with ((form_encode n +:+ "=" +:+ form_encode v)
            +:+ String "&" (URLSearchParams_toString ((n', v') :: q)))
      by now rewrite !append_assoc.
    rewrite split_on_append by apply Hamp.
    cbn [List.filter]. rewrite is_empty_pair. cbn [negb map].
    now rewrite parse_pair, IH.
Qed.

(** The query string [?redirect_uri=<encoded r>] parses to the one pair
    [redirect_uri = r]. *)
Lemma URLSearchParams_redirect_uri (r : string) :
  URLSearchParams_new ("?redirect_uri=" +:+ encodeURIComponent r)
  = [("redirect_uri", r)].
Proof.
  unfold URLSearchParams_new, parse_query.
  change ("?redirect_uri=" +:+ ?x) with (String "?" ("redirect_uri=" +:+ x)).
  cbn iota.
  pose proof (encodeURIComponent_plain r) as Hp.
  apply plain_no_delimiter in Hp.
  rewrite split_on_absent.
  - change (List.filter _ ["redirect_uri=" +:+ encodeURIComponent r])
      with ["redirect_uri=" +:+ encodeURIComponent r].
    cbn [map].
    change (cut_at_equals ("redirect_uri=" +:+ encodeURIComponent r))
      with ("redirect_uri", encodeURIComponent r).
    cbn iota. rewrite form_decode_encodeURIComponent. reflexivity.
  - apply (no_delimiter_absent "&" _ eq_refl) in Hp.
    unfold absent in *. cbn -[encodeURIComponent]. exact Hp.
Qed.

(** The target of the callback page's [navigate] is the payment route with
    that query string. *)
Lemma parsePath_payment (r : string) :
  parsePath ("/payment?redirect_uri=" +:+ encodeURIComponent r)
  = ("/payment", "?redirect_uri=" +:+ encodeURIComponent r).
Proof.
  unfold parsePath.
  pose proof (encodeURIComponent_plain r) as Hp.
  apply plain_no_delimiter in Hp.
  apply (no_delimiter_absent "#" _ eq_refl) in Hp.
  rewrite (cut_before_absent "#").
  - reflexivity.
  - unfold absent in *. cbn -[encodeURIComponent]. exact Hp.
Qed.

(** ** The callback page, path by path *)

Lemma callback_rejected (env : Env) (w : World) (e : Thrown) :
  getSession env = Rejected e ->
  handleSupabaseCallback env w
  = (Fulfilled tt, stopped w (callback_failure e)).
Proof.
  intros H. unfold handleSupabaseCallback. run_handler. rewrite H.
  reflexivity.
Qed.

Lemma callback_no_session (env : Env) (w : World) (r : GetSessionResult) :
  getSession env = Fulfilled r ->
  sessionError r <> None \/ data_session r = None ->
  handleSupabaseCallback env w
  = (Fulfilled tt, stopped w "Failed to authenticate with Google").
Proof.
  intros H Hno. unfold handleSupabaseCallback. run_handler. rewrite H.
  destruct r as [[s|] [e|]]; cbn in *; try reflexivity.
  destruct Hno; congruence.
Qed.

Lemma callback_expired (env : Env) (w : World) (s : Session.t) :
  established env s ->
  truthy (sessionStorage w !! storage_key) = false ->
  handleSupabaseCallback env w
  = (Fulfilled tt, stopped w "OAuth session expired. Please try again.").
Proof.
  intros H Hs. unfold handleSupabaseCallback. run_handler. rewrite H.
  cbn. destruct w as [c st tr]; cbn in *. rewrite Hs. reflexivity.
Qed.

Lemma callback_unparsed (env : Env) (w : World) (s : Session.t)
    (text : string) :
  established env s ->
  sessionStorage w !! storage_key = Some text ->
  truthy (Some text) = true ->
  JSON_parse text = None ->
  handleSupabaseCallback env w
  = (Fulfilled tt, stopped w (callback_failure OtherError)).
Proof.
  intros H Hs Ht Hp. unfold handleSupabaseCallback. run_handler. rewrite H.
  destruct text as [|a text]; [discriminate|].
  cbn. destruct w as [c st tr]; cbn in *. rewrite Hs. cbn. rewrite Hp.
  reflexivity.
Qed.

Lemma callback_posted (env : Env) (w : World) (s : Session.t)
    (text : string) (stored : JsObject) :
  established env s ->
  sessionStorage w !! storage_key = Some text ->
  truthy (Some text) = true ->
  JSON_parse text = Some stored ->
  handleSupabaseCallback env w
  = (Fulfilled tt,
     match axios_settle (callback_transport env s stored) with
     | Fulfilled _ =>
         forwarded w (callback_post env s stored)
           (or_default (obj_get stored "redirect_uri") EmptyString)
     | Rejected e =>
         post_failed w (callback_post env s stored) (callback_failure e)
     end).
Proof.
  intros H Hs Ht Hp. unfold handleSupabaseCallback. run_handler. rewrite H.
  destruct text as [|a text]; [discriminate|].
  cbn. destruct w as [c st tr]; cbn in *. rewrite Hs. cbn. rewrite Hp.
  unfold callback_transport, callback_post, forwarded, post_failed.
  destruct (axios_settle _); cbn; rewrite <- ?List.app_assoc; reflexivity.
Qed.

Lemma mount_callback (env : Env) (search : string)
    (storage : gmap string string) :
  mount env "/auth/callback" search storage
  = handleSupabaseCallback env
      {| component := initial; sessionStorage := storage; trace := [] |}.
Proof. reflexivity. Qed.

(** Every way the callback page can run, on a fresh page load: it stops
    without any effect, or it has posted and then either forwarded or
    failed. *)
Lemma mount_callback_cases (env : Env) (search : string)
    (storage : gmap string string) :
  let w0 := {| component := initial; sessionStorage := storage;
               trace := [] |} in
  let w' := snd (mount env "/auth/callback" search storage) in
  (exists msg, w' = stopped w0 msg) \/
  (exists s text stored,
      established env s /\
      storage !! storage_key = Some text /\
      JSON_parse text = Some stored /\
      w' = match axios_settle (callback_transport env s stored) with
           | Fulfilled _ =>
               forwarded w0 (callback_post env s stored)
                 (or_default (obj_get stored "redirect_uri") EmptyString)
           | Rejected e =>
               post_failed w0 (callback_post env s stored)
                 (callback_failure e)
           end).
Proof.
  intros w0 w'. subst w'. rewrite mount_callback. fold w0.
  destruct (getSession env) as [r|e] eqn:Hg.
  2:{ left. eexists. now rewrite (callback_rejected _ _ _ Hg). }
  destruct r as [[s|] [e|]].
  2:{ destruct (truthy (sessionStorage w0 !! storage_key)) eqn:Ht.
      - destruct (storage !! storage_key) as [text|] eqn:Hs;
          [|cbn in Ht; rewrite Hs in Ht; discriminate].
        cbn in Ht. rewrite Hs in Ht.
        destruct (JSON_parse text) as [stored|] eqn:Hp.
        + right. exists s, text, stored. repeat split; try assumption.
          now rewrite (callback_posted env w0 s text stored).
        + left. eexists.
          now rewrite (callback_unparsed env w0 s text).
      - left. eexists. now rewrite (callback_expired env w0 s). }
  all: left; eexists;
    rewrite (callback_no_session _ _ _ Hg); [reflexivity | cbn; auto].
Qed.

(** The payment page, reached through the callback page's [navigate],
    reads the forwarded target back. *)
Lemma payment_reads_target (target : string) :
  let to := "/payment?redirect_uri=" +:+ encodeURIComponent target in
  App (fst (parsePath to)) = Some (Payment_page 100 "INR" "user@example.com")
  /\ URLSearchParams_get (URLSearchParams_new (snd (parsePath to)))
       "redirect_uri" = Some target
  /\ redirectUri (snd (parsePath to)) = target.
Proof.
  cbv zeta. rewrite parsePath_payment. cbn [fst snd]. unfold redirectUri.
  rewrite URLSearchParams_redirect_uri. repeat split.
  now destruct target.
Qed.

(** ** The callback page after its POST *)

(** The current revision after an accepted POST.  On the callback page,
    for every POST the page issues that axios accepts (a response arrives
    before the timeout and its status is 200 to 299), whatever the
    response's body: the [oauth_params] entry is removed from
    [sessionStorage], and the page's last act is to navigate to
    [/payment?redirect_uri=<encodeURIComponent of the stored redirect_uri>],
    the route of the payment page, whose query string yields that
    redirect_uri back. *)
Lemma callback_forwards_after_accepted_post :
  forall (env : Env) (search : string) (storage : gmap string string)
         (url : string) (body : PostBody) (config : PostConfig)
         (r : HttpResponse),
    let w' := snd (mount env "/auth/callback" search storage) in
    In (Post url body config) (trace w') ->
    backend env url body = Responded r ->
    validateStatus (status r) = true ->
    sessionStorage w' !! storage_key = None /\
    exists stored : JsObject,
      storage !! storage_key ≫= JSON_parse = Some stored /\
      let target := or_default (obj_get stored "redirect_uri") EmptyString in
      let to := "/payment?redirect_uri=" +:+ encodeURIComponent target in
      last (trace w') = Some (Navigate to) /\
      App (fst (parsePath to))
        = Some (Payment_page 100 "INR" "user@example.com") /\
      redirectUri (snd (parsePath to)) = target.
Proof.
  intros env search storage url body config r w' Hin Hb Hv.
  destruct (mount_callback_cases env search storage)
    as [[msg Hw] | (s & text & stored & Hs & Ht & Hp & Hw)];
    fold w' in Hw; rewrite Hw in *.
  { cbn in Hin. contradiction. }
  assert (Hpost : Post url body config = callback_post env s stored).
  { destruct (axios_settle _); cbn in Hin; intuition congruence. }
  unfold callback_post in Hpost. injection Hpost as -> -> ->.
  unfold callback_transport. rewrite Hb. cbn [axios_settle]. rewrite Hv.
  split; [apply lookup_delete_eq|].
  exists stored. split; [now rewrite Ht|].
  split; [reflexivity|].
  pose proof (payment_reads_target
                (or_default (obj_get stored "redirect_uri") EmptyString))
    as (Ha & _ & Hr).
  split; assumption.
Qed.

(** A POST that the backend answers with a status outside 200 to 299 ends
    in the [catch] block: the entry stays, nothing is navigated to, and the
    status and the backend's message (or, without one, axios's) are
    shown. *)
Lemma callback_refused_post_keeps_context (env : Env) (w : World)
    (s : Session.t) (text : string) (stored : JsObject) (r : HttpResponse) :
  established env s ->
  sessionStorage w !! storage_key = Some text ->
  truthy (Some text) = true ->
  JSON_parse text = Some stored ->
  callback_transport env s stored = Responded r ->
  validateStatus (status r) = false ->
  handleSupabaseCallback env w
  = (Fulfilled tt,
     post_failed w (callback_post env s stored)
       ("Authentication failed (" +:+ Number_toString (status r) +:+ "): "
        +:+ or_default
              (match data r with Some d => message d | None => None end)
              ("Request failed with status code "
               +:+ Number_toString (status r)))).
Proof.
  intros H Hs Ht Hp Hr Hv.
  rewrite (callback_posted env w s text stored H Hs Ht Hp), Hr.
  cbn [axios_settle]. now rewrite Hv.
Qed.

(** C1, as stated, fails: the backend answers the POST with status 401 and
    a message, well within the timeout; the entry stays in [sessionStorage],
    nothing is navigated to, and the page shows the backend's status and
    message. *)
Lemma callback_error_status_keeps_context :
  exists (url : string) (body : PostBody) (config : PostConfig),
    In (Post url body config)
       (trace (snd (mount (sample_env (Responded unauthorized_response))
                      "/auth/callback" EmptyString sample_storage)))
    /\ backend (sample_env (Responded unauthorized_response)) url body
       = Responded unauthorized_response
    /\ sessionStorage
         (snd (mount (sample_env (Responded unauthorized_response))
                 "/auth/callback" EmptyString sample_storage))
       !! storage_key
       = Some (JSON_stringify (Object_entries sample_request))
    /\ (forall to,
          ~ In (Navigate to)
              (trace (snd (mount (sample_env (Responded unauthorized_response))
                             "/auth/callback" EmptyString sample_storage))))
    /\ error (component
                (snd (mount (sample_env (Responded unauthorized_response))
                        "/auth/callback" EmptyString sample_storage)))
       = Some "Authentication failed (401): invalid client".
Proof.
  exists (URL_toString
            (callbackUrl backendUrl (Object_entries sample_request))),
         (EnhancedBody (enhancedSessionData sample_browser sample_session)),
         post_config.
  split; [vm_compute; left; reflexivity|].
  split; [reflexivity|].
  split; [vm_compute; reflexivity|].
  split; [|vm_compute; reflexivity].
  intros to. vm_compute. intros [H|[]]. discriminate.
Qed.

(** ** C2: the payment page redirects on verified success only *)

Lemma on_verified_success (search : string) (o : VerifyOutcome) :
  status_is_success o = true ->
  on_verified search o = LocationHref (redirectUri search).
Proof.
  destruct o as [err|err|d]; try discriminate.
  destruct d as [ | | | | |members]; try discriminate.
  cbn. destruct (member "status" members) as [[ | | |s| | ]|];
    try discriminate.
  cbn. now intros ->.
Qed.

Lemma on_verified_failure (search : string) (o : VerifyOutcome) :
  status_is_success o = false ->
  exists msg, on_verified search o = Alert msg.
Proof.
  destruct o as [err|err|d]; cbn; eauto.
  destruct d as [ | | | | |members]; cbn; eauto.
  destruct (member "status" members) as [[ | | |s| | ]|]; cbn; eauto.
  intros ->. eauto.
Qed.



(** ** C3: an invalid authorize request *)

Lemma authorize_invalid (env : Env) (search : string)
    (storage : gmap string string) :
  let q := URLSearchParams_new search in
  truthy (URLSearchParams_get q "client_id") = false
  \/ truthy (URLSearchParams_get q "redirect_uri") = false
  \/ URLSearchParams_get q "response_type" <> Some "code" ->
  mount env "/authorize" search storage
  = (Fulfilled tt,
     {| component :=
          {| isLoading := false; oauthParams := None;
             error :=
               Some "Invalid OAuth request: Missing required parameters" |};
        sessionStorage := storage;
        trace := [] |}).
Proof.
  intros q H. unfold mount, useEffect.
  change (String.eqb "/authorize" "/authorize") with true. cbn iota.
  cbn [client_id redirect_uri response_type]. fold q.
  assert (Hbad : negb (truthy (URLSearchParams_get q "client_id"))
                 || negb (truthy (URLSearchParams_get q "redirect_uri"))
                 || negb (strict_eq (URLSearchParams_get q "response_type")
                            "code") = true).
  { destruct H as [-> | [-> | H]]; rewrite ?orb_true_r; try reflexivity.
    destruct (URLSearchParams_get q "response_type") as [x|];
      cbn; rewrite ?orb_true_r; try reflexivity.
    destruct (String.eqb_spec x "code") as [->|];
      [congruence | now rewrite orb_true_r]. }
  rewrite Hbad. reflexivity.
Qed.

(** Without a captured request no click writes to the storage. *)
Lemma clicks_without_request (actions : list Click) :
  forall w : World,
    oauthParams (component w) = None ->
    oauthParams (component (clicks actions w)) = None
    /\ (forall e, In e (trace (clicks actions w)) ->
                  is_SetItem e = true -> In e (trace w))
    /\ (forall k v, sessionStorage (clicks actions w) !! k = Some v ->
                    sessionStorage w !! k = Some v).
Proof.
  induction actions as [|a actions IH]; intros w Hw; [cbn; auto|].
  change (clicks (a :: actions) w) with (clicks actions (click a w)).
  assert (Hstep : oauthParams (component (click a w)) = None
                  /\ (forall e, In e (trace (click a w)) ->
                                is_SetItem e = true -> In e (trace w))
                  /\ (forall k v, sessionStorage (click a w) !! k = Some v ->
                                  sessionStorage w !! k = Some v)).
  { destruct a as [env|]; cbn [click].
    - unfold handleLogin. rewrite Hw. cbn. auto.
    - unfold goBack. run_handler. cbn. repeat split; [assumption | |].
      + intros e He Hset. rewrite <- List.app_assoc in He.
        apply in_app_or in He as [He|[<-|[<-|[]]]];
          [assumption | discriminate | discriminate].
      + intros k v Hk. destruct w as [c st tr]; cbn in *.
        apply lookup_delete_Some in Hk. tauto. }
  destruct Hstep as (H1 & H2 & H3).
  destruct (IH (click a w) H1) as (I1 & I2 & I3).
  repeat split; eauto.
Qed.

(** C3.  On the authorize path, for every query string in which
    [client_id] is missing or empty, or [redirect_uri] is missing or empty,
    or [response_type] is not the literal [code]: the page shows the error
    view with exactly the message
    [Invalid OAuth request: Missing required parameters], no request is
    captured, nothing has touched the storage, and whatever is clicked
    afterwards nothing is ever written to it. *)
Theorem invalid_request_is_rejected_and_never_stored :
  forall (env : Env) (search : string) (storage : gmap string string)
         (actions : list Click),
    let q := URLSearchParams_new search in
    truthy (URLSearchParams_get q "client_id") = false
    \/ truthy (URLSearchParams_get q "redirect_uri") = false
    \/ URLSearchParams_get q "response_type" <> Some "code" ->
    let w := snd (mount env "/authorize" search storage) in
    render (component w) "/authorize"
    = ErrorView "Invalid OAuth request: Missing required parameters"
    /\ error (component w)
       = Some "Invalid OAuth request: Missing required parameters"
    /\ oauthParams (component w) = None
    /\ sessionStorage w = storage
    /\ trace w = []
    /\ (forall e, In e (trace (clicks actions w)) -> is_SetItem e = false)
    /\ (forall k v, sessionStorage (clicks actions w) !! k = Some v ->
                    storage !! k = Some v).
Proof.
  intros env search storage actions q H w. subst w.
  rewrite (authorize_invalid env search storage H). cbn [snd].
  repeat split; try reflexivity.
  - intros e He. destruct (is_SetItem e) eqn:Hset; [|reflexivity].
    eapply clicks_without_request in He; eauto. destruct He.
  - intros k v Hk. eapply clicks_without_request in Hk; eauto.
Qed.

(** The query string [?client_id=abc&response_type=code], without a
    [redirect_uri], followed by a click on the error view's button and an
    attempted sign-in. *)
Lemma invalid_request_is_rejected_and_never_stored_witness :
  URLSearchParams_get
    (URLSearchParams_new "?client_id=abc&response_type=code") "redirect_uri"
  = None
  /\ render
       (component (snd (mount signed_out_env "/authorize"
                          "?client_id=abc&response_type=code" ∅)))
       "/authorize"
     = ErrorView "Invalid OAuth request: Missing required parameters"
  /\ forall e,
       In e (trace (clicks [ClickSignIn signed_out_env; ClickGoBack]
                      (snd (mount signed_out_env "/authorize"
                              "?client_id=abc&response_type=code" ∅)))) ->
       is_SetItem e = false.
Proof.
  split; [reflexivity|].
  destruct (invalid_request_is_rejected_and_never_stored
              signed_out_env "?client_id=abc&response_type=code" ∅
              [ClickSignIn signed_out_env; ClickGoBack])
    as (Hr & _ & _ & _ & _ & Hw & _).
  - right. left. reflexivity.
  - split; [exact Hr | exact Hw].
Defined.

(** ** C4: the two gates of the callback page *)

(** C4, as amended.  The callback page checks its gates in order.  When
    [getSession] reports an error or no session, the page stops with the
    message [Failed to authenticate with Google] (no full stop at its end).
    Otherwise, when [sessionStorage] holds no [oauth_params] entry (or an
    empty one), it stops with [OAuth session expired. Please try again.].
    In both cases nothing is posted: the trace and the storage are
    untouched. *)
Theorem callback_gates_in_order :
  forall (env : Env) (w : World) (r : GetSessionResult),
    getSession env = Fulfilled r ->
    let w' := snd (handleSupabaseCallback env w) in
    (sessionError r <> None \/ data_session r = None ->
       error (component w') = Some "Failed to authenticate with Google"
       /\ trace w' = trace w
       /\ sessionStorage w' = sessionStorage w)
    /\ (sessionError r = None -> data_session r <> None ->
        truthy (sessionStorage w !! storage_key) = false ->
          error (component w')
          = Some "OAuth session expired. Please try again."
          /\ trace w' = trace w
          /\ sessionStorage w' = sessionStorage w).
Proof.
  intros env w r Hg w'. subst w'. split.
  - intros Hno. rewrite (callback_no_session env w r Hg Hno). now cbn.
  - intros He Hs Ht. destruct r as [[s|] [e|]]; cbn in *; try congruence.
    rewrite (callback_expired env w s Hg Ht). now cbn.
Qed.

(** The callback page reached without having signed in, and reached after
    sign-in in a tab whose storage is empty. *)
Lemma callback_gates_in_order_witness :
  (error (component (snd (handleSupabaseCallback signed_out_env sample_world)))
   = Some "Failed to authenticate with Google"
   /\ trace (snd (handleSupabaseCallback signed_out_env sample_world)) = [])
  /\ (error (component
               (snd (handleSupabaseCallback
                       (sample_env (Responded ok_response)) sample_world)))
      = Some "OAuth session expired. Please try again."
      /\ trace (snd (handleSupabaseCallback
                       (sample_env (Responded ok_response)) sample_world))
         = []).
Proof.
  split.
  - destruct (callback_gates_in_order signed_out_env sample_world
                {| data_session := None; sessionError := None |} eq_refl)
      as [H _].
    destruct H as (He & Ht & _); [right; reflexivity|].
    split; [exact He | exact Ht].
  - destruct (callback_gates_in_order (sample_env (Responded ok_response))
                sample_world
                {| data_session := Some sample_session;
                   sessionError := None |} eq_refl)
      as [_ H].
    destruct H as (He & Ht & _);
      [reflexivity | discriminate | reflexivity |].
    split; [exact He | exact Ht].
Defined.

(** C4, as stated, fails on the first message: without a session the page
    does not show the text that ends in a full stop. *)
Lemma callback_no_session_message_has_no_full_stop :
  getSession signed_out_env
  = Fulfilled {| data_session := None; sessionError := None |}
  /\ error (component (snd (mount signed_out_env "/auth/callback"
                             EmptyString sample_storage)))
     <> Some "Failed to authenticate with Google."
  /\ error (component (snd (mount signed_out_env "/auth/callback"
                             EmptyString sample_storage)))
     = Some "Failed to authenticate with Google".
Proof.
  split; [reflexivity|]. split; [|vm_compute; reflexivity].
  vm_compute. discriminate.
Qed.

(** ** C5: the stored request, written, read back, used once *)

Lemma login_run (env : Env) (w : World) (p : OAuthParams) :
  oauthParams (component w) = Some p ->
  let text := JSON_stringify (Object_entries p) in
  let w' := snd (handleLogin env w) in
  sessionStorage w' = <[storage_key := text]> (sessionStorage w)
  /\ trace w'
     = (trace w ++ [SetItem storage_key text;
                    SignIn (signIn_options (browser env))])%list.
Proof.
  intros Hp text w'. subst w'. unfold handleLogin. rewrite Hp.
  run_handler. cbn.
  destruct (signInWithOAuth env (signIn_options (browser env)))
    as [[m|]|e]; cbn; rewrite <- List.app_assoc; auto.
Qed.

Lemma stored_request_reads_back (p : OAuthParams) :
  JSON_parse (JSON_stringify (Object_entries p)) = Some (Object_entries p).
Proof. apply JSON_parse_stringify, NoDup_Object_entries. Qed.

(** C5.  A request captured on the authorize page and written by the login
    button reads back from [sessionStorage], through [JSON.parse], as the
    same seven fields; once a run of the callback page has been accepted by
    the backend the entry is gone; and a second visit of the callback page
    in that tab, still signed in, finds no entry and stops with
    [OAuth session expired. Please try again.] without posting. *)
Theorem flow_context_round_trip_and_single_use :
  forall (env0 env1 env2 : Env) (w : World) (p : OAuthParams)
         (s1 s2 : Session.t) (r : HttpResponse) (search1 search2 : string),
    oauthParams (component w) = Some p ->
    established env1 s1 ->
    callback_transport env1 s1 (Object_entries p) = Responded r ->
    validateStatus (status r) = true ->
    established env2 s2 ->
    let w1 := snd (handleLogin env0 w) in
    let w2 := snd (mount env1 "/auth/callback" search1 (sessionStorage w1)) in
    let w3 := snd (mount env2 "/auth/callback" search2 (sessionStorage w2)) in
    sessionStorage w1 !! storage_key ≫= JSON_parse = Some (Object_entries p)
    /\ as_OAuthParams
       <$> (sessionStorage w1 !! storage_key ≫= JSON_parse) = Some p
    /\ sessionStorage
         (snd (sessionStorage_removeItem storage_key w1)) !! storage_key
       = None
    /\ sessionStorage w2 !! storage_key = None
    /\ error (component w3) = Some "OAuth session expired. Please try again."
    /\ trace w3 = [].
Proof.
  intros env0 env1 env2 w p s1 s2 r search1 search2 Hp H1 Hr Hv H2 w1 w2 w3.
  destruct (login_run env0 w p Hp) as [Hst _]. fold w1 in Hst.
  assert (Hread : sessionStorage w1 !! storage_key
                  = Some (JSON_stringify (Object_entries p))).
  { rewrite Hst. apply lookup_insert_eq. }
  assert (Hw2 : sessionStorage w2 !! storage_key = None).
  { subst w2. rewrite mount_callback.
    rewrite (callback_posted env1
               {| component := initial; sessionStorage := sessionStorage w1;
                  trace := [] |}
               s1 _ (Object_entries p) H1 Hread
               (JSON_stringify_truthy _) (stored_request_reads_back p)).
    rewrite Hr. cbn [axios_settle]. rewrite Hv. cbn.
    apply lookup_delete_eq. }
  repeat split.
  - rewrite Hread. cbn [mbind option_bind].
    apply stored_request_reads_back.
  - rewrite Hread. cbn [mbind option_bind].
    rewrite stored_request_reads_back. cbn [fmap option_fmap option_map].
    now rewrite as_OAuthParams_entries.
  - cbn. apply lookup_delete_eq.
  - exact Hw2.
  - subst w3. rewrite mount_callback.
    rewrite (callback_expired env2
               {| component := initial; sessionStorage := sessionStorage w2;
                  trace := [] |} s2 H2); [reflexivity|].
    cbn. now rewrite Hw2.
  - subst w3. rewrite mount_callback.
    rewrite (callback_expired env2
               {| component := initial; sessionStorage := sessionStorage w2;
                  trace := [] |} s2 H2); [reflexivity|].
    cbn. now rewrite Hw2.
Qed.

(** The sample request through login, an accepted callback and a repeated
    callback. *)
Lemma flow_context_round_trip_and_single_use_witness :
  as_OAuthParams
  <$> (sessionStorage (snd (handleLogin signed_out_env sample_world))
       !! storage_key ≫= JSON_parse)
  = Some sample_request
  /\ error
       (component
          (snd (mount (sample_env (Responded ok_response)) "/auth/callback"
                  EmptyString
                  (sessionStorage
                     (snd (mount (sample_env (Responded ok_response))
                             "/auth/callback" EmptyString
                             (sessionStorage
                                (snd (handleLogin signed_out_env
                                        sample_world)))))))))
     = Some "OAuth session expired. Please try again.".
Proof.
  destruct (flow_context_round_trip_and_single_use
              signed_out_env (sample_env (Responded ok_response))
              (sample_env (Responded ok_response)) sample_world
              sample_request sample_session sample_session ok_response
              EmptyString EmptyString
              eq_refl eq_refl eq_refl eq_refl eq_refl)
    as (_ & Hrt & _ & _ & Hexp & _).
  split; [exact Hrt | exact Hexp].
Defined.

(** ** C6: the backend callback URL *)

Lemma URLSearchParams_set_fresh (q : URLSearchParams) (name value : string) :
  ~ In name (map fst q) ->
  URLSearchParams_set q name value = (q ++ [(name, value)])%list.
Proof.
  induction q as [|[n v] q IH]; intros Hn; [reflexivity|].
  cbn in *. destruct (String.eqb_spec n name) as [->|Hne].
  - exfalso. apply Hn. now left.
  - rewrite IH; [reflexivity | tauto].
Qed.



(** The [forEach] appends one parameter per truthy member, in order, as
    long as no name repeats. *)
Lemma callbackUrl_fold (o : JsObject) :
  forall u : URL,
    List.NoDup (map fst (searchParams u) ++ map fst o)%list ->
    fold_left
      (fun u kv =>
         match snd kv with
         | Some (String c r) => searchParams_set u (fst kv) (String c r)
         | _ => u
         end) o u
    = {| url_origin := url_origin u;
         url_pathname := url_pathname u;
         searchParams := (searchParams u ++ omap echo o)%list |}.
Proof.
  induction o as [|[k v] o IH]; intros u Hnd.
  - cbn. rewrite app_nil_r. now destruct u.
  - cbn [fold_left fst snd].
    assert (Hk : ~ In k (map fst (searchParams u))).
    { intros Hin. apply List.NoDup_remove_2 in Hnd. apply Hnd.
      apply in_or_app. now left. }
    assert (Hnd' : List.NoDup (map fst (searchParams u) ++ map fst o)%list).
    { now apply List.NoDup_remove_1 in Hnd. }
    destruct v as [[|c r]|].
    + rewrite IH by exact Hnd'. reflexivity.
    + rewrite IH.
      * cbn. rewrite URLSearchParams_set_fresh by exact Hk.
        now rewrite <- List.app_assoc.
      * cbn. rewrite URLSearchParams_set_fresh by exact Hk.
        rewrite map_app. cbn. rewrite <- List.app_assoc. exact Hnd.
    + rewrite IH by exact Hnd'. reflexivity.
Qed.

Lemma callbackUrl_entries (base : string) (p : OAuthParams) :
  callbackUrl base (Object_entries p)
  = {| url_origin := base; url_pathname := "/callback";
       searchParams := non_empty_fields p |}.
Proof.
  unfold callbackUrl. rewrite callbackUrl_fold.
  - reflexivity.
  - apply NoDup_Object_entries.
Qed.

(** C6.  For a stored request [p], the URL the callback page posts to is
    the fixed backend origin, the path [/callback], and a query made of
    exactly the non-empty fields of [p], each under its own name: a pair is
    a parameter if and only if it is a field of [p] with a non-empty value,
    and the query text parses back to exactly those pairs. *)
Theorem callback_url_echoes_non_empty_fields :
  forall (env : Env) (search : string) (storage : gmap string string)
         (p : OAuthParams) (s : Session.t),
    established env s ->
    storage !! storage_key = Some (JSON_stringify (Object_entries p)) ->
    let u := callbackUrl backendUrl (Object_entries p) in
    url_origin u = backendUrl
    /\ url_pathname u = "/callback"
    /\ searchParams u = non_empty_fields p
    /\ (forall k v,
          (k, v) ∈ searchParams u
          <-> v <> EmptyString /\ (k, Some v) ∈ Object_entries p)
    /\ URL_toString u
       = backendUrl +:+ "/callback" +:+
         match non_empty_fields p with
         | [] => EmptyString
         | q => "?" +:+ URLSearchParams_toString q
         end
    /\ parse_query (URLSearchParams_toString (searchParams u))
       = non_empty_fields p
    /\ exists body config,
         head (trace (snd (mount env "/auth/callback" search storage)))
         = Some (Post (URL_toString u) body config).
Proof.
  intros env search storage p s Hs Hst u. subst u.
  rewrite callbackUrl_entries. cbn [url_origin url_pathname searchParams].
  repeat split; try reflexivity.
  - unfold non_empty_fields in H. apply list_elem_of_omap in H
      as ([k' v'] & _ & He).
    destruct v' as [[|c r]|]; cbn in He; try discriminate.
    injection He as <- <-. discriminate.
  - unfold non_empty_fields in H. apply list_elem_of_omap in H
      as ([k' v'] & Hin & He).
    destruct v' as [[|c r]|]; cbn in He; try discriminate.
    now injection He as <- <-.
  - intros [Hv Hin]. unfold non_empty_fields. apply list_elem_of_omap.
    exists (k, Some v). split; [exact Hin|].
    destruct v; [congruence | reflexivity].
  - apply parse_query_toString.
  - rewrite mount_callback.
    rewrite (callback_posted env
               {| component := initial; sessionStorage := storage;
                  trace := [] |}
               s _ (Object_entries p) Hs Hst
               (JSON_stringify_truthy _) (stored_request_reads_back p)).
    unfold callback_post. rewrite callbackUrl_entries.
    destruct (axios_settle _); cbn; eauto.
Qed.

(** The sample request: three parameters, in the order of the fields. *)
Lemma callback_url_echoes_non_empty_fields_witness :
  URL_toString (callbackUrl backendUrl (Object_entries sample_request))
  = "https://remote-ga4-mcp-229250458092.us-central1.run.app/callback?client_id=abc&redirect_uri=https%3A%2F%2Fx.test%2Fdone&response_type=code"
  /\ searchParams (callbackUrl backendUrl (Object_entries sample_request))
     = [("client_id", "abc"); ("redirect_uri", "https://x.test/done");
        ("response_type", "code")].
Proof.
  destruct (callback_url_echoes_non_empty_fields
              (sample_env (Responded ok_response)) EmptyString sample_storage
              sample_request sample_session eq_refl eq_refl)
    as (_ & _ & Hq & _ & Hu & _).
  split; [exact Hu | exact Hq].
Defined.

(** ** The login button *)

(** The login button of the current revision.  With a captured request
    [p], it first writes the JSON text of all seven fields of [p] under
    [oauth_params] and then calls the provider's sign-in with provider
    [google], the return address [<origin>/auth/callback] (a route of this
    application, served by the same component), a scope list that contains
    the analytics read-only scope and the analytics user-management
    read-only scope, [access_type=offline] and [prompt=consent]. *)
Lemma login_stores_request_then_delegates :
  forall (env : Env) (w : World) (p : OAuthParams),
    oauthParams (component w) = Some p ->
    let w' := snd (handleLogin env w) in
    let text := JSON_stringify (Object_entries p) in
    let opts := signIn_options (browser env) in
    trace w' = (trace w ++ [SetItem storage_key text; SignIn opts])%list
    /\ sessionStorage w' !! storage_key = Some text
    /\ as_OAuthParams <$> JSON_parse text = Some p
    /\ provider opts = "google"
    /\ redirectTo opts = location_origin (browser env) +:+ "/auth/callback"
    /\ App "/auth/callback" = Some OAuthGoogle_page
    /\ (exists list, scopes opts = Some list
          /\ In "https://www.googleapis.com/auth/analytics.readonly"
               (split_on " " list)
          /\ In "https://www.googleapis.com/auth/analytics.manage.users.readonly"
               (split_on " " list))
    /\ In ("access_type", "offline") (queryParams opts)
    /\ In ("prompt", "consent") (queryParams opts).
Proof.
  intros env w p Hp w' text opts.
  destruct (login_run env w p Hp) as [Hst Htr]. fold w' text in Hst, Htr.
  repeat split.
  - exact Htr.
  - rewrite Hst. apply lookup_insert_eq.
  - unfold text. rewrite stored_request_reads_back.
    cbn [fmap option_fmap option_map]. now rewrite as_OAuthParams_entries.
  - exists login_scopes. split; [reflexivity|].
    split; vm_compute; tauto.
  - cbn. tauto.
  - cbn. tauto.
Qed.

(** ** C8: the credentials in the payload *)

(** C8, as amended.  In every POST of the callback page, the body's
    session is the established session, and the body's Google credentials
    are: the session's provider token (empty when absent), its provider
    refresh token (null when absent or empty), its expiry seconds (3600 when
    zero), its token type ([Bearer] when empty), and as scope the fixed
    text [https://www.googleapis.com/auth/analytics.readonly], whatever the
    session or the provider's grant. *)
Theorem posted_credentials_come_from_session_with_fixed_scope :
  forall (env : Env) (search : string) (storage : gmap string string)
         (url : string) (d : EnhancedSessionData) (config : PostConfig),
    In (Post url (EnhancedBody d) config)
       (trace (snd (mount env "/auth/callback" search storage))) ->
    exists s : Session.t,
      established env s
      /\ session d = s
      /\ GoogleCredentials.access_token (google_credentials d)
         = or_default (Session.provider_token s) EmptyString
      /\ GoogleCredentials.refresh_token (google_credentials d)
         = (if truthy (Session.provider_refresh_token s)
            then Session.provider_refresh_token s else None)
      /\ GoogleCredentials.expires_in (google_credentials d)
         = (if (Session.expires_in s =? 0)%Z then 3600%Z
            else Session.expires_in s)
      /\ GoogleCredentials.token_type (google_credentials d)
         = (if is_empty (Session.token_type s) then "Bearer"
            else Session.token_type s)
      /\ GoogleCredentials.scope (google_credentials d)
         = "https://www.googleapis.com/auth/analytics.readonly".
Proof.
  intros env search storage url d config Hin.
  destruct (mount_callback_cases env search storage)
    as [[msg Hw] | (s & text & stored & Hs & Ht & Hp & Hw)];
    cbv zeta in Hw; rewrite Hw in Hin.
  { cbn in Hin. contradiction. }
  assert (Hpost : Post url (EnhancedBody d) config
                  = callback_post env s stored).
  { destruct (axios_settle _); cbn in Hin; intuition congruence. }
  unfold callback_post in Hpost. injection Hpost as -> -> ->.
  exists s. repeat split; try assumption.
  cbn. now destruct (Session.token_type s).
Qed.

(** The sample session, posted. *)
Lemma posted_credentials_come_from_session_with_fixed_scope_witness :
  established (sample_env (Responded ok_response)) sample_session
  /\ GoogleCredentials.access_token
       (google_credentials (enhancedSessionData sample_browser sample_session))
     = "ya29.token"
  /\ GoogleCredentials.scope
       (google_credentials (enhancedSessionData sample_browser sample_session))
     = "https://www.googleapis.com/auth/analytics.readonly".
Proof.
  destruct (posted_credentials_come_from_session_with_fixed_scope
              (sample_env (Responded ok_response)) EmptyString sample_storage
              (URL_toString
                 (callbackUrl backendUrl (Object_entries sample_request)))
              (enhancedSessionData sample_browser sample_session)
              post_config)
    as (s & Hs & Hd & Ha & _ & _ & _ & Hsc).
  - vm_compute. left. reflexivity.
  - cbn [session enhancedSessionData] in Hd. subst s.
    split; [exact Hs|]. split; [exact Ha | exact Hsc].
Defined.

(** C8, as stated, fails on the scope: whether the provider granted every
    scope the login asked for or the basic scopes only, the posted scope is
    the same text, and it is neither grant. *)
Lemma posted_scope_is_not_the_granted_scope :
  In (Post (URL_toString
              (callbackUrl backendUrl (Object_entries sample_request)))
        (EnhancedBody (enhancedSessionData sample_browser sample_session))
        post_config)
     (trace (snd (mount (sample_env (Responded ok_response)) "/auth/callback"
                    EmptyString sample_storage)))
  /\ In (Post (URL_toString
                 (callbackUrl backendUrl (Object_entries sample_request)))
           (EnhancedBody (enhancedSessionData sample_browser sample_session))
           post_config)
        (trace (snd (mount (declined_env (Responded ok_response))
                       "/auth/callback" EmptyString sample_storage)))
  /\ GoogleCredentials.scope
       (google_credentials (enhancedSessionData sample_browser sample_session))
     <> granted_scope (sample_env (Responded ok_response))
  /\ GoogleCredentials.scope
       (google_credentials (enhancedSessionData sample_browser sample_session))
     <> granted_scope (declined_env (Responded ok_response)).
Proof.
  split; [vm_compute; left; reflexivity|].
  split; [vm_compute; left; reflexivity|].
  split; vm_compute; discriminate.
Qed.

(** ** The error view's Go Back button *)

(** The Go Back button of the current revision removes the
    [oauth_params] entry from [sessionStorage] (and nothing else), clears
    the error, and sets the location to [/], the application root, which is
    none of the routes; a page loaded there starts from the component's
    initial state, so nothing of the flow in progress is left. *)
Lemma go_back_clears_context_and_restarts :
  forall w : World,
    let w' := snd (goBack w) in
    sessionStorage w' !! storage_key = None
    /\ sessionStorage w' = delete storage_key (sessionStorage w)
    /\ trace w' = (trace w ++ [RemoveItem storage_key; LocationHref "/"])%list
    /\ error (component w') = None
    /\ App "/" = None
    /\ forall env search,
         mount env "/" search (sessionStorage w')
         = (Fulfilled tt,
            {| component := initial;
               sessionStorage := delete storage_key (sessionStorage w);
               trace := [] |}).
Proof.
  intros w w'. subst w'. unfold goBack. run_handler. cbn.
  repeat split.
  - apply lookup_delete_eq.
  - now rewrite <- List.app_assoc.
Qed.

(** ** C10: the payment page without a [redirect_uri] *)

(** C10.  When the payment page's query string has no [redirect_uri]
    parameter, the forwarded target is the empty string, and a verified
    payment sets the location to the empty string: no alert, no error. *)
Theorem payment_without_redirect_uri_goes_to_empty_location :
  forall (search : string) (verify : string -> VerifyBody -> VerifyOutcome)
         (response : RazorpayResponse),
    URLSearchParams_get (URLSearchParams_new search) "redirect_uri" = None ->
    status_is_success
      (verify "/payment/verify"
         {| razorpay_payment_id := response_payment_id response;
            razorpay_signature :=
              or_default (response_signature response) "no-signature" |})
    = true ->
    redirectUri search = EmptyString
    /\ handler search verify response
       = [FetchVerify "/payment/verify"
            {| razorpay_payment_id := response_payment_id response;
               razorpay_signature :=
                 or_default (response_signature response) "no-signature" |};
          LocationHref EmptyString].
Proof.
  intros search verify response Hq Hok.
  assert (Hr : redirectUri search = EmptyString).
  { unfold redirectUri. now rewrite Hq. }
  split; [exact Hr|].
  unfold handler. now rewrite (on_verified_success search _ Hok), Hr.
Qed.

(** The payment page opened as [/payment], without any query string. *)
Lemma payment_without_redirect_uri_goes_to_empty_location_witness :
  redirectUri EmptyString = EmptyString
  /\ handler EmptyString
       (fun _ _ => BodyJson (JObject [("status", JString "success")]))
       sample_payment
     = [FetchVerify "/payment/verify"
          {| razorpay_payment_id := Some "pay_123";
             razorpay_signature := "sig" |};
        LocationHref EmptyString].
Proof.
  apply (payment_without_redirect_uri_goes_to_empty_location
           EmptyString
           (fun _ _ => BodyJson (JObject [("status", JString "success")]))
           sample_payment);
    reflexivity.
Defined.

(** ** The earlier revision, where it differs *)

(** Its sign-in call names no scopes and no query parameters. *)
Lemma earlier_login_requests_no_scopes (b : Browser) :
  scopes (Earlier.signIn_options b) = None
  /\ queryParams (Earlier.signIn_options b) = [].
Proof. split; reflexivity. Qed.

(** Its Go Back button leaves the storage as it is. *)
Lemma earlier_go_back_keeps_storage (w : World) :
  sessionStorage (snd (Earlier.goBack w)) = sessionStorage w
  /\ trace (snd (Earlier.goBack w)) = (trace w ++ [LocationHref "/"])%list.
Proof. split; reflexivity. Qed.

(** Its login button writes the same entry. *)
Lemma earlier_login_run (env : Env) (w : World) (p : OAuthParams) :
  oauthParams (component w) = Some p ->
  let text := JSON_stringify (Object_entries p) in
  let w' := snd (Earlier.handleLogin env w) in
  sessionStorage w' = <[storage_key := text]> (sessionStorage w)
  /\ trace w'
     = (trace w ++ [SetItem storage_key text;
                    SignIn (Earlier.signIn_options (browser env))])%list.
Proof.
  intros Hp text w'. subst w'. unfold Earlier.handleLogin. rewrite Hp.
  run_handler. cbn.
  destruct (signInWithOAuth env (Earlier.signIn_options (browser env)))
    as [[m|]|e]; cbn; rewrite <- List.app_assoc; auto.
Qed.

(** Its callback page once the gates are passed and the base is a URL:
    the POST, and then by the way the POST settles. *)
Lemma earlier_callback_posted (origin : string) (setter : LocationSetter)
    (env : Env) (w : World) (s : Session.t) (text : string)
    (stored : JsObject) :
  established env s ->
  sessionStorage w !! storage_key = Some text ->
  truthy (Some text) = true ->
  JSON_parse text = Some stored ->
  let w' := snd (Earlier.handleSupabaseCallback (Some origin) setter env w) in
  match axios_settle (backend env (URL_toString (callbackUrl origin stored))
                        (SessionBody s)) with
  | Fulfilled r =>
      sessionStorage w' = delete storage_key (sessionStorage w)
      /\ trace w'
         = (trace w ++ earlier_post origin s stored
            :: RemoveItem storage_key :: earlier_follow setter r)%list
      /\ error (component w') = earlier_follow_error setter r
  | Rejected e =>
      w' = post_failed w (earlier_post origin s stored)
             (Earlier.callback_failure e)
  end.
Proof.
  intros H Hs Ht Hp w'. subst w'.
  unfold Earlier.handleSupabaseCallback. run_handler. rewrite H.
  destruct text as [|a text]; [discriminate|].
  cbn. destruct w as [c st tr]; cbn in *. rewrite Hs. cbn. rewrite Hp.
  cbn. unfold earlier_post, earlier_follow, earlier_follow_error, post_failed.
  destruct (axios_settle _) as [r|e]; cbn;
    [|rewrite <- ?List.app_assoc; reflexivity].
  destruct r as [st' [[ok m [[|c' u]|]]|]]; cbn;
    try destruct (accepts setter (String c' u)); cbn;
    rewrite <- ?List.app_assoc; auto.
Qed.

(** Without a base that is a URL it stops before posting. *)
Lemma earlier_callback_without_base (setter : LocationSetter) (env : Env)
    (w : World) (s : Session.t) (text : string) (stored : JsObject) :
  established env s ->
  sessionStorage w !! storage_key = Some text ->
  truthy (Some text) = true ->
  JSON_parse text = Some stored ->
  snd (Earlier.handleSupabaseCallback None setter env w)
  = stopped w "An unexpected error occurred during authentication".
Proof.
  intros H Hs Ht Hp.
  unfold Earlier.handleSupabaseCallback. run_handler. rewrite H.
  destruct text as [|a text]; [discriminate|].
  cbn. destruct w as [c st tr]; cbn in *. rewrite Hs. cbn. rewrite Hp.
  reflexivity.
Qed.

(** Its two gates, and a session lookup that throws. *)
Lemma earlier_callback_stopped (backend_origin : option string)
    (setter : LocationSetter) (env : Env) (w : World) :
  (forall r, getSession env = Fulfilled r ->
             sessionError r <> None \/ data_session r = None ->
             snd (Earlier.handleSupabaseCallback backend_origin setter env w)
             = stopped w "Failed to authenticate with Google")
  /\ (forall s, established env s ->
                truthy (sessionStorage w !! storage_key) = false ->
                snd (Earlier.handleSupabaseCallback backend_origin setter
                       env w)
                = stopped w "OAuth session expired. Please try again.")
  /\ (forall e, getSession env = Rejected e ->
                snd (Earlier.handleSupabaseCallback backend_origin setter
                       env w)
                = stopped w (Earlier.callback_failure e)).
Proof.
  unfold Earlier.handleSupabaseCallback. run_handler.
  destruct w as [c st tr]. repeat split.
  - intros r -> Hno. destruct r as [[s|] [e|]]; cbn in *; try reflexivity.
    destruct Hno; congruence.
  - intros s -> Ht. cbn in *. now rewrite Ht.
  - intros e ->. reflexivity.
Qed.

(** ** The flow from end to end, on the sample request *)

(** The authorize page captures the request of the query string. *)
Example authorize_captures_sample_request :
  component
    (snd (mount signed_out_env "/authorize"
            "?client_id=abc&redirect_uri=https://x.test/done&response_type=code"
            ∅))
  = {| isLoading := false; oauthParams := Some sample_request;
       error := None |}.
Proof. vm_compute. reflexivity. Qed.

(** Capture writes nothing; the login button writes the entry. *)
Example authorize_writes_on_login_only :
  sessionStorage
    (snd (mount signed_out_env "/authorize"
            "?client_id=abc&redirect_uri=https://x.test/done&response_type=code"
            ∅)) !! storage_key = None
  /\ sessionStorage (snd (handleLogin signed_out_env sample_world))
     = sample_storage.
Proof. split; vm_compute; reflexivity. Qed.

(** Authorize, sign in, come back, pay: the browser ends at the
    requester's redirect_uri. *)
Example sample_flow_reaches_redirect_uri :
  exists to : string,
    last (trace
            (snd (mount (sample_env (Responded ok_response)) "/auth/callback"
                    EmptyString
                    (sessionStorage
                       (snd (handleLogin signed_out_env sample_world))))))
    = Some (Navigate to)
    /\ App (fst (parsePath to))
       = Some (Payment_page 100 "INR" "user@example.com")
    /\ last (handler (snd (parsePath to))
               (fun _ _ => BodyJson (JObject [("status", JString "success")]))
               sample_payment)
       = Some (LocationHref "https://x.test/done").
Proof.
  eexists. split; [vm_compute; reflexivity|].
  split; vm_compute; reflexivity.
Qed.

(** ** The claims that differ between the two revisions *)

(** C1, as amended.  On the callback page, for a stored request as the
    login button wrote it and for every POST the page issues that axios
    accepts (a response arrives before the timeout with a status of 200 to
    299), whatever the response's body, the [oauth_params] entry is removed
    from [sessionStorage]; then
    - the current revision navigates, as its last act, to
      [/payment?redirect_uri=<encodeURIComponent of the request's
      redirect_uri>], the route of the payment page, whose query string
      yields that redirect_uri back;
    - the earlier revision never navigates to the payment page: it sets
      the location to the backend's [redirectUrl] when the response has a
      non-empty one that the location accepts, and does nothing more
      otherwise. *)
Theorem accepted_post_clears_and_forwards_by_revision :
  forall (env : Env) (search : string) (storage : gmap string string)
         (p : OAuthParams) (url : string) (body : PostBody)
         (config : PostConfig) (r : HttpResponse),
    storage !! storage_key = Some (JSON_stringify (Object_entries p)) ->
    backend env url body = Responded r ->
    validateStatus (status r) = true ->
    (let w' := snd (mount env "/auth/callback" search storage) in
     In (Post url body config) (trace w') ->
     sessionStorage w' !! storage_key = None
     /\ let target := or_default (redirect_uri p) EmptyString in
        let to := "/payment?redirect_uri=" +:+ encodeURIComponent target in
        last (trace w') = Some (Navigate to)
        /\ App (fst (parsePath to))
           = Some (Payment_page 100 "INR" "user@example.com")
        /\ redirectUri (snd (parsePath to)) = target)
    /\ (forall (backend_origin : option string) (setter : LocationSetter),
          let w' := snd (Earlier.handleSupabaseCallback backend_origin setter
                           env (loaded storage)) in
          In (Post url body config) (trace w') ->
          sessionStorage w' !! storage_key = None
          /\ (forall to, ~ In (Navigate to) (trace w'))
          /\ trace w'
             = (Post url body config :: RemoveItem storage_key
                :: earlier_follow setter r)%list).
Proof.
  intros env search storage p url body config r Hst Hb Hv. split.
  - intros w' Hin.
    destruct (callback_forwards_after_accepted_post
                env search storage url body config r Hin Hb Hv)
      as (Hgone & stored & Hstored & Hlast & Happ & Hread).
    rewrite Hst in Hstored. cbn [mbind option_bind] in Hstored.
    rewrite stored_request_reads_back in Hstored.
    injection Hstored as <-.
    split; [exact Hgone|]. split; [exact Hlast|]. split; assumption.
  - intros backend_origin setter w' Hin.
    destruct (earlier_callback_stopped backend_origin setter env
                (loaded storage)) as (Hno & Hexp & Hrej).
    destruct (getSession env) as [r0|e] eqn:Hg.
    2:{ exfalso. subst w'. rewrite (Hrej e eq_refl) in Hin. destruct Hin. }
    destruct r0 as [[s|] [e|]].
    2:{ destruct backend_origin as [origin|].
        2:{ exfalso. subst w'.
            rewrite (earlier_callback_without_base setter env
                       (loaded storage) s _ (Object_entries p) Hg Hst
                       (JSON_stringify_truthy _)
                       (stored_request_reads_back p)) in Hin.
            destruct Hin. }
        pose proof (earlier_callback_posted origin setter env
                      (loaded storage) s _ (Object_entries p) Hg Hst
                      (JSON_stringify_truthy _)
                      (stored_request_reads_back p)) as Hrun.
        cbv zeta in Hrun. fold w' in Hrun.
        destruct (axios_settle _) as [r'|e] eqn:E.
        - destruct Hrun as (Hs' & Htr & _).
          assert (Hpost : Post url body config
                          = earlier_post origin s (Object_entries p)).
          { rewrite Htr in Hin. cbn in Hin.
            destruct Hin as [H|[H|H]]; [now symmetry | discriminate |].
            exfalso. unfold earlier_follow in H.
            destruct (data r') as [[ok m [[|c u]|]]|]; cbn in H;
              try destruct (accepts setter (String c u)); cbn in H;
              intuition discriminate. }
          unfold earlier_post in Hpost. injection Hpost as -> -> ->.
          rewrite Hb in E. cbn [axios_settle] in E. rewrite Hv in E.
          injection E as <-.
          split; [rewrite Hs'; apply lookup_delete_eq|].
          split; [|exact Htr].
          intros to. rewrite Htr. cbn. unfold earlier_follow.
          intros [H|[H|H]]; try discriminate.
          destruct (data r) as [[ok m [[|c u]|]]|]; cbn in H;
            try destruct (accepts setter (String c u)); cbn in H;
            intuition discriminate.
        - exfalso. rewrite Hrun in Hin. cbn in Hin.
          destruct Hin as [H|[]]. unfold earlier_post in H.
          injection H as <- <- <-.
          rewrite Hb in E. cbn [axios_settle] in E. rewrite Hv in E.
          discriminate. }
    all: exfalso; subst w';
      rewrite (Hno _ eq_refl) in Hin by (cbn; auto); destruct Hin.
Qed.

(** The sample request through both callback pages, the backend accepting
    the POST and naming a [redirectUrl]. *)
Lemma accepted_post_clears_and_forwards_by_revision_witness :
  last (trace (snd (mount (sample_env (Responded redirecting_response))
                      "/auth/callback" EmptyString sample_storage)))
  = Some (Navigate "/payment?redirect_uri=https%3A%2F%2Fx.test%2Fdone")
  /\ trace (snd (Earlier.handleSupabaseCallback
                   (Some Earlier.default_origin) sample_setter
                   (sample_env (Responded redirecting_response))
                   (loaded sample_storage)))
     = [Post
          "http://localhost:3000/callback?client_id=abc&redirect_uri=https%3A%2F%2Fx.test%2Fdone&response_type=code"
          (SessionBody sample_session) Earlier.post_config;
        RemoveItem "oauth_params";
        LocationHref "https://x.test/done?code=1"].
Proof.
  split.
  - destruct (accepted_post_clears_and_forwards_by_revision
                (sample_env (Responded redirecting_response)) EmptyString
                sample_storage sample_request
                (URL_toString
                   (callbackUrl backendUrl (Object_entries sample_request)))
                (EnhancedBody
                   (enhancedSessionData sample_browser sample_session))
                post_config redirecting_response
                (lookup_insert_eq _ _ _) eq_refl eq_refl)
      as [Hcur _].
    destruct Hcur as (_ & Hlast & _); [vm_compute; left; reflexivity|].
    exact Hlast.
  - destruct (accepted_post_clears_and_forwards_by_revision
                (sample_env (Responded redirecting_response)) EmptyString
                sample_storage sample_request
                "http://localhost:3000/callback?client_id=abc&redirect_uri=https%3A%2F%2Fx.test%2Fdone&response_type=code"
                (SessionBody sample_session)
                Earlier.post_config redirecting_response
                (lookup_insert_eq _ _ _) eq_refl eq_refl)
      as [_ Hold].
    destruct (Hold (Some Earlier.default_origin) sample_setter)
      as (_ & _ & Htr); [vm_compute; left; reflexivity|].
    exact Htr.
Defined.

(** C7, as amended.  With a captured request [p], the login button first
    writes the JSON text of all seven fields of [p] under [oauth_params]
    and then calls the provider's sign-in with provider [google] and the
    return address [<origin>/auth/callback], a route of this application.
    In the current revision the call also carries a scope list that
    contains the analytics read-only scope and the analytics
    user-management read-only scope, [access_type=offline] and
    [prompt=consent]; in the earlier revision it carries no scopes and no
    query parameters. *)
Theorem login_stores_then_delegates_by_revision :
  forall (env : Env) (w : World) (p : OAuthParams),
    oauthParams (component w) = Some p ->
    let text := JSON_stringify (Object_entries p) in
    as_OAuthParams <$> JSON_parse text = Some p
    /\ App "/auth/callback" = Some OAuthGoogle_page
    /\ (let w' := snd (handleLogin env w) in
        let opts := signIn_options (browser env) in
        trace w' = (trace w ++ [SetItem storage_key text; SignIn opts])%list
        /\ sessionStorage w' !! storage_key = Some text
        /\ provider opts = "google"
        /\ redirectTo opts = location_origin (browser env) +:+ "/auth/callback"
        /\ (exists list, scopes opts = Some list
              /\ In "https://www.googleapis.com/auth/analytics.readonly"
                   (split_on " " list)
              /\ In "https://www.googleapis.com/auth/analytics.manage.users.readonly"
                   (split_on " " list))
        /\ In ("access_type", "offline") (queryParams opts)
        /\ In ("prompt", "consent") (queryParams opts))
    /\ (let w' := snd (Earlier.handleLogin env w) in
        let opts := Earlier.signIn_options (browser env) in
        trace w' = (trace w ++ [SetItem storage_key text; SignIn opts])%list
        /\ sessionStorage w' !! storage_key = Some text
        /\ provider opts = "google"
        /\ redirectTo opts = location_origin (browser env) +:+ "/auth/callback"
        /\ scopes opts = None
        /\ queryParams opts = []).
Proof.
  intros env w p Hp text.
  destruct (login_stores_request_then_delegates env w p Hp)
    as (Htr & Hst & Hrt & Hpr & Hto & Happ & Hsc & Ha & Hc).
  split; [exact Hrt|]. split; [exact Happ|]. split.
  - repeat split; assumption.
  - destruct (earlier_login_run env w p Hp) as [Hst' Htr'].
    repeat split; try assumption.
    rewrite Hst'. apply lookup_insert_eq.
Qed.

(** The login button pressed for the sample request, in both revisions. *)
Lemma login_stores_then_delegates_by_revision_witness :
  trace (snd (handleLogin (sample_env (Responded ok_response)) sample_world))
  = [SetItem "oauth_params"
       (JSON_stringify (Object_entries sample_request));
     SignIn (signIn_options sample_browser)]
  /\ trace (snd (Earlier.handleLogin (sample_env (Responded ok_response))
                   sample_world))
     = [SetItem "oauth_params"
          (JSON_stringify (Object_entries sample_request));
        SignIn (Earlier.signIn_options sample_browser)].
Proof.
  destruct (login_stores_then_delegates_by_revision
              (sample_env (Responded ok_response)) sample_world
              sample_request eq_refl)
    as (_ & _ & (Htr & _) & (Htr' & _)).
  split; [exact Htr | exact Htr'].
Defined.

(** C7, as stated, fails on the earlier revision: its sign-in call for the
    sample request carries the return address and nothing else, neither
    the analytics scopes nor [access_type] nor [prompt]. *)
Lemma earlier_login_passes_the_return_address_only :
  trace (snd (Earlier.handleLogin (sample_env (Responded ok_response))
                sample_world))
  = [SetItem "oauth_params"
       (JSON_stringify (Object_entries sample_request));
     SignIn {| provider := "google";
               redirectTo := "https://auth.example/auth/callback";
               scopes := None;
               queryParams := [] |}]
  /\ scopes (Earlier.signIn_options sample_browser) = None
  /\ ~ In ("access_type", "offline")
         (queryParams (Earlier.signIn_options sample_browser))
  /\ ~ In ("prompt", "consent")
         (queryParams (Earlier.signIn_options sample_browser)).
Proof.
  split; [vm_compute; reflexivity|]. split; [reflexivity|].
  split; intros [].
Qed.

(** Go Back in the two revisions.  The error view's Go Back button clears
    the error and sets the location to [/], the application root, which is
    none of the routes, so that the next page starts from the component's
    initial state.  In the current revision it also removes the
    [oauth_params] entry (and nothing else) from [sessionStorage]; in the
    earlier revision it leaves the storage as it is, so that the stored
    request survives the restart. *)
Theorem go_back_by_revision :
  forall w : World,
    App "/" = None
    /\ (let w' := snd (goBack w) in
        sessionStorage w' !! storage_key = None
        /\ sessionStorage w' = delete storage_key (sessionStorage w)
        /\ trace w'
           = (trace w ++ [RemoveItem storage_key; LocationHref "/"])%list
        /\ error (component w') = None
        /\ forall env search,
             mount env "/" search (sessionStorage w')
             = (Fulfilled tt, loaded (delete storage_key (sessionStorage w))))
    /\ (let w' := snd (Earlier.goBack w) in
        sessionStorage w' = sessionStorage w
        /\ trace w' = (trace w ++ [LocationHref "/"])%list
        /\ error (component w') = None
        /\ forall env search,
             mount env "/" search (sessionStorage w')
             = (Fulfilled tt, loaded (sessionStorage w))).
Proof.
  intros w.
  destruct (go_back_clears_context_and_restarts w)
    as (H1 & H2 & H3 & H4 & H5 & H6).
  split; [exact H5|]. split.
  - repeat split; assumption.
  - repeat split.
Qed.

(** C9 on the earlier revision.  The callback page fails on a backend
    that cannot be reached and shows the error view; Go Back pressed there
    sets the location to [/] and leaves the sample request in the storage,
    where the Go Back of the current revision removes it. *)
Lemma earlier_go_back_keeps_the_stored_request :
  let failed :=
    snd (Earlier.handleSupabaseCallback (Some Earlier.default_origin)
           sample_setter (sample_env (NoResponse "Network Error"))
           (loaded sample_storage)) in
  error (component failed) = Some "Authentication failed: Network Error"
  /\ sessionStorage failed !! storage_key
     = Some (JSON_stringify (Object_entries sample_request))
  /\ snd (Earlier.goBack failed)
     = {| component := initial;
          sessionStorage := sessionStorage failed;
          trace := (trace failed ++ [LocationHref "/"])%list |}
  /\ sessionStorage (snd (Earlier.goBack failed)) !! storage_key
     = Some (JSON_stringify (Object_entries sample_request))
  /\ sessionStorage (snd (goBack failed)) !! storage_key = None.
Proof. repeat split; vm_compute; reflexivity. Qed.

(** * Further properties *)

(** ** The authorize page *)

Lemma mount_authorize (env : Env) (search : string)
    (storage : gmap string string) :
  mount env "/authorize" search storage
  = if acceptable (captured search)
    then (Fulfilled tt,
          {| component := {| isLoading := false;
                             oauthParams := Some (captured search);
                             error := None |};
             sessionStorage := storage; trace := [] |})
    else (Fulfilled tt,
          {| component :=
               {| isLoading := false; oauthParams := None;
                  error :=
                    Some "Invalid OAuth request: Missing required parameters" |};
             sessionStorage := storage; trace := [] |}).
Proof.
  unfold mount, useEffect, acceptable, captured.
  change (String.eqb "/authorize" "/authorize") with true. cbn iota.
  cbn [client_id redirect_uri response_type].
  set (q := URLSearchParams_new search).
  destruct (truthy (URLSearchParams_get q "client_id"));
    destruct (truthy (URLSearchParams_get q "redirect_uri"));
    destruct (strict_eq (URLSearchParams_get q "response_type") "code");
    reflexivity.
Qed.

Lemma strict_eq_true (v : option string) (s : string) :
  strict_eq v s = true <-> v = Some s.
Proof.
  destruct v as [x|]; cbn; [|split; discriminate].
  destruct (String.eqb_spec x s); split; congruence.
Qed.

(** X1.  On the authorize path a query string is captured if and only if
    its [client_id] and [redirect_uri] are non-empty and its
    [response_type] is [code].  A captured request holds, for each of the
    seven names, the first value of that name in the query string; capture
    shows the authorize view with the sign-in button enabled and neither
    reads nor writes the storage. *)
Theorem authorize_captures_exactly_the_acceptable_requests :
  forall (env : Env) (search : string) (storage : gmap string string),
    let q := URLSearchParams_new search in
    let w := snd (mount env "/authorize" search storage) in
    (is_Some (oauthParams (component w))
     <-> truthy (URLSearchParams_get q "client_id") = true
         /\ truthy (URLSearchParams_get q "redirect_uri") = true
         /\ URLSearchParams_get q "response_type" = Some "code")
    /\ (forall p, oauthParams (component w) = Some p ->
          p = captured search
          /\ error (component w) = None
          /\ render (component w) "/authorize" = AuthorizeView (Some p) false)
    /\ sessionStorage w = storage
    /\ trace w = [].
Proof.
  intros env search storage q w. subst w. rewrite mount_authorize.
  unfold acceptable. cbn [captured client_id redirect_uri response_type].
  fold q.
  destruct (truthy (URLSearchParams_get q "client_id")) eqn:Hc;
    destruct (truthy (URLSearchParams_get q "redirect_uri")) eqn:Hr;
    destruct (strict_eq (URLSearchParams_get q "response_type") "code") eqn:Ht;
    cbn [andb snd component oauthParams sessionStorage trace error];
    (split; [|split; [|split; reflexivity]]);
    try (intros p [= <-]; repeat split; reflexivity);
    try (intros p [=]).
  all: split;
    [ intros H; try (destruct H as [? [=]]);
      repeat split; try reflexivity; now apply strict_eq_true
    | intros (H1 & H2 & H3%strict_eq_true); try congruence; eauto ].
Qed.

(** The sample query string is captured as the sample request. *)
Lemma authorize_captures_exactly_the_acceptable_requests_witness :
  oauthParams
    (component
       (snd (mount signed_out_env "/authorize"
               "?client_id=abc&redirect_uri=https://x.test/done&response_type=code"
               ∅)))
  = Some sample_request
  /\ render
       (component
          (snd (mount signed_out_env "/authorize"
                  "?client_id=abc&redirect_uri=https://x.test/done&response_type=code"
                  ∅)))
       "/authorize"
     = AuthorizeView (Some sample_request) false.
Proof.
  destruct (authorize_captures_exactly_the_acceptable_requests
              signed_out_env
              "?client_id=abc&redirect_uri=https://x.test/done&response_type=code"
              ∅) as (_ & H & _).
  destruct (H sample_request) as (_ & _ & Hr); [vm_compute; reflexivity|].
  split; [vm_compute; reflexivity | exact Hr].
Defined.

Lemma URLSearchParams_new_toString (q : URLSearchParams) :
  URLSearchParams_new ("?" +:+ URLSearchParams_toString q) = q.
Proof.
  unfold URLSearchParams_new.
  change ("?" +:+ ?x) with (String "?" x). cbn iota.
  apply parse_query_toString.
Qed.

Lemma captured_echo (p : OAuthParams) :
  no_empty_field p = true ->
  captured ("?" +:+ URLSearchParams_toString (non_empty_fields p)) = p.
Proof.
  intros H. unfold captured. rewrite URLSearchParams_new_toString.
  destruct p as [[[|? ?]|] [[|? ?]|] [[|? ?]|] [[|? ?]|] [[|? ?]|]
                 [[|? ?]|] [[|? ?]|]];
    try discriminate H; reflexivity.
Qed.

(** X2.  The query the callback page appends to the backend URL is a
    query the authorize page accepts and captures as the same request: for
    an acceptable request without empty fields, loading [/authorize] with
    the query of the callback URL captures that request again, field for
    field. *)
Theorem callback_query_is_captured_as_the_same_request :
  forall (env : Env) (storage : gmap string string) (p : OAuthParams),
    acceptable p = true ->
    no_empty_field p = true ->
    let search := "?" +:+ URLSearchParams_toString (non_empty_fields p) in
    URL_toString (callbackUrl backendUrl (Object_entries p))
    = backendUrl +:+ "/callback" +:+ search
    /\ oauthParams (component (snd (mount env "/authorize" search storage)))
       = Some p.
Proof.
  intros env storage p Hok Hne search. split.
  - rewrite callbackUrl_entries. unfold URL_toString.
    cbn [url_origin url_pathname searchParams]. subst search.
    destruct (non_empty_fields p) as [|kv q] eqn:E; [|reflexivity].
    exfalso. unfold acceptable in Hok.
    destruct p as [[[|? ?]|] ? ? ? ? ? ?]; try discriminate Hok.
    discriminate E.
  - rewrite mount_authorize. subst search.
    rewrite (captured_echo p Hne), Hok. reflexivity.
Qed.

(** The sample request and its query. *)
Lemma callback_query_is_captured_as_the_same_request_witness :
  oauthParams
    (component
       (snd (mount signed_out_env "/authorize"
               "?client_id=abc&redirect_uri=https%3A%2F%2Fx.test%2Fdone&response_type=code"
               ∅)))
  = Some sample_request.
Proof.
  exact (proj2 (callback_query_is_captured_as_the_same_request
                  signed_out_env ∅ sample_request eq_refl eq_refl)).
Defined.

(** ** The login button *)

Lemma login_component (env : Env) (w : World) (p : OAuthParams) :
  oauthParams (component w) = Some p ->
  component (snd (handleLogin env w))
  = match signInWithOAuth env (signIn_options (browser env)) with
    | Fulfilled None =>
        {| isLoading := true; oauthParams := Some p; error := None |}
    | Fulfilled (Some m) =>
        {| isLoading := false; oauthParams := Some p;
           error := Some ("Login failed: " +:+ m) |}
    | Rejected _ =>
        {| isLoading := false; oauthParams := Some p;
           error := Some "An unexpected error occurred during login" |}
    end.
Proof.
  destruct w as [[l o e0] st tr]. cbn. intros ->.
  unfold handleLogin. run_handler. cbn.
  destruct (signInWithOAuth env (signIn_options (browser env)))
    as [[m|]|e]; reflexivity.
Qed.

(** X3.  A sign-in call that fails, by returning an error or by throwing,
    ends on the error view, with [Login failed: <reason>] or
    [An unexpected error occurred during login], and with the loading flag
    down.  The request written before the call is still in the storage; the
    error view's Go Back button removes it. *)
Theorem failed_login_shows_error_and_leaves_entry :
  forall (env : Env) (w : World) (p : OAuthParams),
    oauthParams (component w) = Some p ->
    signInWithOAuth env (signIn_options (browser env)) <> Fulfilled None ->
    let w' := snd (handleLogin env w) in
    (exists msg,
        render (component w') "/authorize" = ErrorView msg
        /\ (forall m,
              signInWithOAuth env (signIn_options (browser env))
              = Fulfilled (Some m) -> msg = "Login failed: " +:+ m)
        /\ (forall e,
              signInWithOAuth env (signIn_options (browser env))
              = Rejected e ->
              msg = "An unexpected error occurred during login"))
    /\ isLoading (component w') = false
    /\ sessionStorage w' !! storage_key
       = Some (JSON_stringify (Object_entries p))
    /\ sessionStorage (snd (goBack w')) !! storage_key = None.
Proof.
  intros env w p Hp Hfail w'.
  destruct (login_run env w p Hp) as [Hst _]. fold w' in Hst.
  pose proof (login_component env w p Hp) as Hc. fold w' in Hc.
  split; [|split; [|split]].
  - destruct (signInWithOAuth env (signIn_options (browser env)))
      as [[m|]|e]; [| congruence |]; rewrite Hc; cbn.
    + eexists. split; [reflexivity|]. split; [now intros ? [= <-] | intros ? [=]].
    + eexists. split; [reflexivity|]. split; [intros ? [=] | reflexivity].
  - rewrite Hc.
    destruct (signInWithOAuth env (signIn_options (browser env)))
      as [[m|]|e]; [reflexivity | congruence | reflexivity].
  - rewrite Hst. apply lookup_insert_eq.
  - unfold goBack. run_handler. cbn. apply lookup_delete_eq.
Qed.

(** The provider refuses the sign-in for the sample request. *)
Lemma failed_login_shows_error_and_leaves_entry_witness :
  render (component (snd (handleLogin refusing_env sample_world)))
    "/authorize"
  = ErrorView "Login failed: access_denied"
  /\ sessionStorage (snd (handleLogin refusing_env sample_world))
     !! storage_key
     = Some (JSON_stringify (Object_entries sample_request)).
Proof.
  destruct (failed_login_shows_error_and_leaves_entry
              refusing_env sample_world sample_request eq_refl)
    as ((msg & Hr & Hm & _) & _ & Hs & _).
  - discriminate.
  - rewrite (Hm "access_denied" eq_refl) in Hr.
    split; [exact Hr | exact Hs].
Defined.

(** X4.  A sign-in call that returns without error leaves the page waiting
    for the provider's redirect: no error, the loading flag up, and on the
    authorize view the sign-in button disabled, so that it cannot be
    pressed a second time; exactly one sign-in call has been made. *)
Theorem pending_login_disables_the_button :
  forall (env : Env) (w : World) (p : OAuthParams),
    oauthParams (component w) = Some p ->
    signInWithOAuth env (signIn_options (browser env)) = Fulfilled None ->
    let w' := snd (handleLogin env w) in
    render (component w') "/authorize" = AuthorizeView (Some p) true
    /\ error (component w') = None
    /\ length (List.filter
                 (fun e => match e with SignIn _ => true | _ => false end)
                 (trace w'))
       = S (length (List.filter
                      (fun e => match e with SignIn _ => true | _ => false end)
                      (trace w))).
Proof.
  intros env w p Hp Hok w'.
  pose proof (login_component env w p Hp) as Hc. fold w' in Hc.
  rewrite Hok in Hc.
  destruct (login_run env w p Hp) as [_ Htr]. fold w' in Htr.
  rewrite Hc, Htr. repeat split.
  rewrite List.filter_app, length_app. cbn. lia.
Qed.

(** The sample request, signed in without error. *)
Lemma pending_login_disables_the_button_witness :
  render
    (component (snd (handleLogin (sample_env (Responded ok_response))
                       sample_world)))
    "/authorize"
  = AuthorizeView (Some sample_request) true.
Proof.
  exact (proj1 (pending_login_disables_the_button
                  (sample_env (Responded ok_response)) sample_world
                  sample_request eq_refl eq_refl)).
Defined.

(** ** The callback page *)

Lemma callback_failure_not_empty (e : Thrown) :
  exists c r, callback_failure e = String c r.
Proof. destruct e; cbn; eauto. Qed.

(** X5.  A visit of the callback page, in a tab whose storage is as the
    component leaves it (no entry, or the request the login button wrote),
    ends in one of two ways, never silently.  Either it stops on the error
    view, with a non-empty message, the loading flag down and the storage
    exactly as it was, having posted at most once; or it has posted once,
    removed the entry and navigated to the payment page, in that order,
    without any error.  It never writes to the storage, never calls the
    sign-in and never sets the location itself. *)
Theorem callback_ends_in_error_or_payment :
  forall (env : Env) (search : string) (storage : gmap string string),
    written_by_login storage ->
    let w' := snd (mount env "/auth/callback" search storage) in
    (exists msg,
        render (component w') "/auth/callback" = ErrorView msg
        /\ error (component w') = Some msg
        /\ isLoading (component w') = false
        /\ sessionStorage w' = storage
        /\ (trace w' = []
            \/ exists url body config, trace w' = [Post url body config]))
    \/ (exists url body config target,
          trace w'
          = [Post url body config; RemoveItem storage_key;
             Navigate ("/payment?redirect_uri="
                       +:+ encodeURIComponent target)]
          /\ error (component w') = None
          /\ sessionStorage w' = delete storage_key storage).
Proof.
  intros env search storage _ w'. subst w'. rewrite mount_callback.
  change {| component := initial; sessionStorage := storage; trace := [] |}
    with (loaded storage).
  assert (Hstop : forall msg c r,
             msg = String c r ->
             exists msg',
               render (component (stopped (loaded storage) msg))
                 "/auth/callback" = ErrorView msg'
               /\ error (component (stopped (loaded storage) msg)) = Some msg'
               /\ isLoading (component (stopped (loaded storage) msg)) = false
               /\ sessionStorage (stopped (loaded storage) msg) = storage
               /\ (trace (stopped (loaded storage) msg) = []
                   \/ exists url body config,
                        trace (stopped (loaded storage) msg)
                        = [Post url body config])).
  { intros msg c r ->. eexists. cbn. eauto 10. }
  destruct (getSession env) as [r|e] eqn:Hg.
  2:{ rewrite (callback_rejected _ _ _ Hg). left.
      destruct (callback_failure_not_empty e) as (c & r & E).
      exact (Hstop _ c r E). }
  destruct r as [[s|] [e|]].
  2:{ destruct (truthy (sessionStorage (loaded storage) !! storage_key))
        eqn:Htr.
      - destruct (sessionStorage (loaded storage) !! storage_key)
          as [text|] eqn:Hst; [|discriminate].
        destruct (JSON_parse text) as [stored|] eqn:Hp.
        + rewrite (callback_posted env (loaded storage) s text stored
                     Hg Hst Htr Hp).
          cbn [snd].
          destruct (axios_settle (callback_transport env s stored))
            as [r|e].
          * right. unfold forwarded, callback_post. cbn. eauto 10.
          * left. destruct (callback_failure_not_empty e) as (c & r & E).
            exists (callback_failure e).
            unfold post_failed, callback_post. cbn.
            rewrite E. repeat split. right. eauto.
        + rewrite (callback_unparsed env (loaded storage) s text
                     Hg Hst Htr Hp).
          left. exact (Hstop _ _ _ eq_refl).
      - rewrite (callback_expired env (loaded storage) s Hg Htr).
        left. exact (Hstop _ _ _ eq_refl). }
  all: rewrite (callback_no_session _ _ _ Hg) by (cbn; auto);
    left; exact (Hstop _ _ _ eq_refl).
Qed.

(** The callback page for the sample request, accepted and refused. *)
Lemma callback_ends_in_error_or_payment_witness :
  written_by_login sample_storage
  /\ trace (snd (mount (sample_env (Responded ok_response)) "/auth/callback"
                   EmptyString sample_storage))
     = [callback_post (sample_env (Responded ok_response)) sample_session
          (Object_entries sample_request);
        RemoveItem storage_key;
        Navigate "/payment?redirect_uri=https%3A%2F%2Fx.test%2Fdone"].
Proof.
  assert (Hw : written_by_login sample_storage).
  { right. exists sample_request. apply lookup_insert_eq. }
  split; [exact Hw|].
  destruct (callback_ends_in_error_or_payment
              (sample_env (Responded ok_response)) EmptyString sample_storage
              Hw)
    as [(msg & _ & He & _) | (url & body & config & target & Htr & _)].
  - vm_compute in He. discriminate He.
  - vm_compute. reflexivity.
Defined.

Lemma mount_callback_loaded (env : Env) (search : string)
    (storage : gmap string string) :
  mount env "/auth/callback" search storage
  = handleSupabaseCallback env (loaded storage).
Proof. reflexivity. Qed.

(** X6.  A POST that is not accepted, because no response arrived in time
    or because the response's status is outside 200 to 299, consumes
    nothing: the storage is exactly as it was, the POST is the page's only
    effect, and the message is [Authentication failed (<status>): <text>],
    with [undefined] for the status when there was no response and, for the
    text, the backend's message when it sent a non-empty one and axios's
    otherwise.  Loading the callback page again repeats the same run. *)
Theorem rejected_post_keeps_context_and_can_be_retried :
  forall (env : Env) (search : string) (storage : gmap string string)
         (s : Session.t) (text : string) (stored : JsObject),
    established env s ->
    storage !! storage_key = Some text ->
    truthy (Some text) = true ->
    JSON_parse text = Some stored ->
    (forall r, callback_transport env s stored = Responded r ->
               validateStatus (status r) = false) ->
    let w' := snd (mount env "/auth/callback" search storage) in
    sessionStorage w' = storage
    /\ trace w' = [callback_post env s stored]
    /\ isLoading (component w') = false
    /\ error (component w')
       = Some
           match callback_transport env s stored with
           | NoResponse m => "Authentication failed (undefined): " +:+ m
           | Responded r =>
               "Authentication failed (" +:+ Number_toString (status r)
               +:+ "): "
               +:+ or_default
                     (match data r with
                      | Some d => message d
                      | None => None
                      end)
                     ("Request failed with status code "
                      +:+ Number_toString (status r))
           end
    /\ snd (mount env "/auth/callback" search (sessionStorage w')) = w'.
Proof.
  intros env search storage s text stored Hs Hst Ht Hp Hrej w'.
  assert (Hw : w' = post_failed (loaded storage) (callback_post env s stored)
                      (callback_failure
                         match callback_transport env s stored with
                         | NoResponse m => AxiosError None m
                         | Responded r =>
                             AxiosError (Some r)
                               ("Request failed with status code "
                                +:+ Number_toString (status r))
                         end)).
  { subst w'. rewrite mount_callback_loaded.
    rewrite (callback_posted env (loaded storage) s text stored Hs Hst Ht Hp).
    cbn [snd]. destruct (callback_transport env s stored) as [r|m] eqn:E.
    - cbn [axios_settle]. now rewrite (Hrej r eq_refl).
    - reflexivity. }
  assert (Hsame : sessionStorage w' = storage) by now rewrite Hw.
  split; [exact Hsame|]. split; [now rewrite Hw|]. split; [now rewrite Hw|].
  split; [|now rewrite Hsame].
  rewrite Hw. cbn [post_failed component error].
  now destruct (callback_transport env s stored).
Qed.

(** The sample request against a backend that does not answer in time. *)
Lemma rejected_post_keeps_context_and_can_be_retried_witness :
  error
    (component
       (snd (mount (sample_env (NoResponse "timeout of 15000ms exceeded"))
               "/auth/callback" EmptyString sample_storage)))
  = Some "Authentication failed (undefined): timeout of 15000ms exceeded"
  /\ sessionStorage
       (snd (mount (sample_env (NoResponse "timeout of 15000ms exceeded"))
               "/auth/callback" EmptyString sample_storage))
     = sample_storage.
Proof.
  destruct (rejected_post_keeps_context_and_can_be_retried
              (sample_env (NoResponse "timeout of 15000ms exceeded"))
              EmptyString sample_storage sample_session
              (JSON_stringify (Object_entries sample_request))
              (Object_entries sample_request)
              eq_refl eq_refl eq_refl
              (stored_request_reads_back sample_request))
    as (Hst & _ & _ & He & _).
  - intros r [=].
  - split; [exact He | exact Hst].
Defined.

(** X7.  When [getSession] itself throws, the page stops with
    [An unexpected error occurred during authentication]: nothing is read
    from the storage, nothing is posted. *)
Theorem thrown_session_lookup_stops_the_callback :
  forall (env : Env) (search : string) (storage : gmap string string),
    getSession env = Rejected OtherError ->
    let w' := snd (mount env "/auth/callback" search storage) in
    render (component w') "/auth/callback"
    = ErrorView "An unexpected error occurred during authentication"
    /\ isLoading (component w') = false
    /\ sessionStorage w' = storage
    /\ trace w' = [].
Proof.
  intros env search storage Hg w'. subst w'.
  rewrite mount_callback_loaded, (callback_rejected _ _ _ Hg). now cbn.
Qed.

(** The session lookup throws on the callback page. *)
Lemma thrown_session_lookup_stops_the_callback_witness :
  render
    (component
       (snd (mount throwing_env "/auth/callback" EmptyString sample_storage)))
    "/auth/callback"
  = ErrorView "An unexpected error occurred during authentication"
  /\ trace (snd (mount throwing_env "/auth/callback" EmptyString
                   sample_storage)) = [].
Proof.
  destruct (thrown_session_lookup_stops_the_callback
              throwing_env EmptyString sample_storage eq_refl)
    as (Hr & _ & _ & Ht).
  split; [exact Hr | exact Ht].
Defined.

(** ** The storage, over whole sessions of use *)

Lemma mount_elsewhere (env : Env) (path search : string)
    (storage : gmap string string) :
  path <> "/authorize" -> path <> "/auth/callback" ->
  mount env path search storage = (Fulfilled tt, loaded storage).
Proof.
  intros H1 H2. unfold mount, useEffect.
  destruct (String.eqb_spec path "/authorize"); [contradiction|].
  destruct (String.eqb_spec path "/auth/callback"); [contradiction|].
  reflexivity.
Qed.

Lemma mount_storage (env : Env) (path search : string)
    (storage : gmap string string) :
  sessionStorage (snd (mount env path search storage)) = storage
  \/ sessionStorage (snd (mount env path search storage))
     = delete storage_key storage.
Proof.
  destruct (String.eqb_spec path "/authorize") as [->|H1].
  { rewrite mount_authorize. destruct (acceptable _); now left. }
  destruct (String.eqb_spec path "/auth/callback") as [->|H2].
  { destruct (mount_callback_cases env search storage)
      as [[msg Hw] | (s & text & stored & _ & _ & _ & Hw)];
      cbv zeta in Hw; rewrite Hw; [now left|].
    destruct (axios_settle _); [now right | now left]. }
  rewrite (mount_elsewhere env path search storage H1 H2). now left.
Qed.

Lemma click_storage (a : Click) (w : World) :
  sessionStorage (click a w) = sessionStorage w
  \/ sessionStorage (click a w) = delete storage_key (sessionStorage w)
  \/ exists p, oauthParams (component w) = Some p
               /\ sessionStorage (click a w)
                  = <[storage_key := JSON_stringify (Object_entries p)]>
                      (sessionStorage w).
Proof.
  destruct a as [env|]; cbn [click].
  - destruct (oauthParams (component w)) as [p|] eqn:Hp.
    + right. right. exists p. split; [reflexivity|].
      now destruct (login_run env w p Hp).
    + left. unfold handleLogin. now rewrite Hp.
  - right. left. reflexivity.
Qed.

(** X8.  Of the tab's [sessionStorage] the component touches the
    [oauth_params] entry only: whatever page is loaded and whatever is
    clicked, every other key keeps its value. *)
Theorem only_the_oauth_params_entry_is_touched :
  forall (env : Env) (path search : string) (storage : gmap string string)
         (actions : list Click) (k : string),
    k <> storage_key ->
    sessionStorage (clicks actions (snd (mount env path search storage))) !! k
    = storage !! k.
Proof.
  intros env path search storage actions k Hk.
  assert (Hclicks : forall w,
             sessionStorage (clicks actions w) !! k = sessionStorage w !! k).
  { induction actions as [|a actions IH]; intros w; [reflexivity|].
    change (clicks (a :: actions) w) with (clicks actions (click a w)).
    rewrite IH.
    destruct (click_storage a w) as [->|[->|(p & _ & ->)]];
      [reflexivity | now apply lookup_delete_ne | now apply lookup_insert_ne]. }
  rewrite Hclicks.
  destruct (mount_storage env path search storage) as [->| ->];
    [reflexivity | now apply lookup_delete_ne].
Qed.

(** Another key of the tab survives capture, sign-in and Go Back. *)
Lemma only_the_oauth_params_entry_is_touched_witness :
  sessionStorage
    (clicks [ClickSignIn signed_out_env; ClickGoBack]
       (snd (mount signed_out_env "/authorize"
               "?client_id=abc&redirect_uri=https://x.test/done&response_type=code"
               (<["theme" := "dark"]> ∅))))
  !! "theme" = Some "dark".
Proof.
  rewrite (only_the_oauth_params_entry_is_touched
             signed_out_env "/authorize"
             "?client_id=abc&redirect_uri=https://x.test/done&response_type=code"
             (<["theme" := "dark"]> ∅)
             [ClickSignIn signed_out_env; ClickGoBack] "theme").
  - reflexivity.
  - discriminate.
Defined.

Lemma click_keeps_request (a : Click) (w : World) (p : OAuthParams) :
  oauthParams (component w) = Some p ->
  oauthParams (component (click a w)) = Some p
  /\ (forall e, In e (trace (click a w)) -> is_SetItem e = true ->
        In e (trace w)
        \/ e = SetItem storage_key (JSON_stringify (Object_entries p))).
Proof.
  intros Hp. destruct a as [env|]; cbn [click].
  - split.
    + rewrite (login_component env w p Hp).
      now destruct (signInWithOAuth env _) as [[m|]|e].
    + destruct (login_run env w p Hp) as [_ ->].
      intros e [He|[<-|[<-|[]]]]%in_app_or Hset;
        [now left | now right | discriminate].
  - split; [destruct w as [[l o e0] st tr]; exact Hp|].
    unfold goBack. run_handler. cbn. rewrite <- List.app_assoc.
    intros e [He|[<-|[<-|[]]]]%in_app_or Hset;
      [now left | discriminate | discriminate].
Qed.

(** X9.  Once a request has been captured it stays the component's request
    whatever is clicked, and whatever the clicks write to the storage is
    the JSON text of that request under [oauth_params]. *)
Theorem clicks_write_only_the_captured_request :
  forall (actions : list Click) (w : World) (p : OAuthParams),
    oauthParams (component w) = Some p ->
    oauthParams (component (clicks actions w)) = Some p
    /\ (forall e, In e (trace (clicks actions w)) -> is_SetItem e = true ->
          In e (trace w)
          \/ e = SetItem storage_key (JSON_stringify (Object_entries p)))
    /\ (sessionStorage (clicks actions w) !! storage_key
        = sessionStorage w !! storage_key
        \/ sessionStorage (clicks actions w) !! storage_key = None
        \/ sessionStorage (clicks actions w) !! storage_key
           = Some (JSON_stringify (Object_entries p))).
Proof.
  induction actions as [|a actions IH]; intros w p Hp; [cbn; auto|].
  change (clicks (a :: actions) w) with (clicks actions (click a w)).
  destruct (click_keeps_request a w p Hp) as [Hp' Htr].
  destruct (IH (click a w) p Hp') as (I1 & I2 & I3).
  split; [exact I1|]. split.
  - intros e He Hset. destruct (I2 e He Hset) as [H|H]; [|now right].
    exact (Htr e H Hset).
  - destruct I3 as [I3|[I3|I3]]; [|now right; left | now right; right].
    rewrite I3.
    destruct (click_storage a w) as [->|[->|(p' & Hp'' & ->)]].
    + now left.
    + right. left. apply lookup_delete_eq.
    + right. right. rewrite Hp in Hp''. injection Hp'' as <-.
      apply lookup_insert_eq.
Qed.

(** The sample request through two sign-in attempts and a Go Back. *)
Lemma clicks_write_only_the_captured_request_witness :
  oauthParams
    (component
       (clicks [ClickSignIn refusing_env; ClickGoBack;
                ClickSignIn signed_out_env] sample_world))
  = Some sample_request.
Proof.
  exact (proj1 (clicks_write_only_the_captured_request
                  [ClickSignIn refusing_env; ClickGoBack;
                   ClickSignIn signed_out_env]
                  sample_world sample_request eq_refl)).
Defined.

(** ** What is stored, whatever it is *)







(** ** From the authorize page to the requester *)

(** X11.  The whole relay.  For an acceptable query string whose
    [redirect_uri] the location accepts as a URL, after the sign-in button,
    a callback visit with a session whose POST the backend accepts, and a
    payment whose verification succeeds, the browser's location is set to
    exactly the [redirect_uri] value of the original query string; by then
    the stored request is gone. *)
Theorem relay_ends_at_the_requested_redirect_uri :
  forall (env0 env1 : Env) (search search1 : string)
         (storage : gmap string string) (s : Session.t) (r : HttpResponse)
         (setter : LocationSetter)
         (verify : string -> VerifyBody -> VerifyOutcome)
         (response : RazorpayResponse) (target : string),
    acceptable (captured search) = true ->
    URLSearchParams_get (URLSearchParams_new search) "redirect_uri"
    = Some target ->
    accepts setter target = true ->
    established env1 s ->
    (forall url body, backend env1 url body = Responded r) ->
    validateStatus (status r) = true ->
    status_is_success (verify "/payment/verify" (verify_body response))
    = true ->
    let w0 := snd (mount env0 "/authorize" search storage) in
    let w1 := snd (handleLogin env0 w0) in
    let w2 := snd (mount env1 "/auth/callback" search1 (sessionStorage w1)) in
    exists to,
      last (trace w2) = Some (Navigate to)
      /\ sessionStorage w2 !! storage_key = None
      /\ App (fst (parsePath to))
         = Some (Payment_page 100 "INR" "user@example.com")
      /\ handler_by setter (snd (parsePath to)) verify response
         = [FetchVerify "/payment/verify" (verify_body response);
            LocationHref target].
Proof.
  intros env0 env1 search search1 storage s r setter verify response target
         Hok Hget Hacc Hs Hb Hv Hver w0 w1 w2.
  assert (Hw0 : oauthParams (component w0) = Some (captured search)).
  { subst w0. rewrite mount_authorize, Hok. reflexivity. }
  destruct (login_run env0 w0 (captured search) Hw0) as [Hst _].
  fold w1 in Hst.
  assert (Hread : sessionStorage (loaded (sessionStorage w1)) !! storage_key
                  = Some (JSON_stringify (Object_entries (captured search)))).
  { cbn. rewrite Hst. apply lookup_insert_eq. }
  assert (Htarget : or_default
                      (obj_get (Object_entries (captured search))
                         "redirect_uri") EmptyString = target).
  { change (obj_get (Object_entries (captured search)) "redirect_uri")
      with (URLSearchParams_get (URLSearchParams_new search) "redirect_uri").
    rewrite Hget. unfold acceptable in Hok.
    cbn [captured redirect_uri] in Hok. rewrite Hget in Hok.
    destruct target; [|reflexivity].
    cbn in Hok. rewrite andb_false_r in Hok. discriminate. }
  assert (Hw2 : w2 = forwarded (loaded (sessionStorage w1))
                       (callback_post env1 s
                          (Object_entries (captured search)))
                       target).
  { subst w2. rewrite mount_callback_loaded.
    rewrite (callback_posted env1 _ s _ _ Hs Hread
               (JSON_stringify_truthy _)
               (stored_request_reads_back (captured search))).
    unfold callback_transport. rewrite Hb. cbn [axios_settle snd].
    now rewrite Hv, Htarget. }
  destruct (payment_reads_target target) as (Happ & _ & Hred).
  exists ("/payment?redirect_uri=" +:+ encodeURIComponent target).
  rewrite Hw2. split; [reflexivity|]. split; [apply lookup_delete_eq|].
  split; [exact Happ|].
  unfold handler_by, on_verified_by. fold (verify_body response).
  now rewrite (on_verified_success _ _ Hver), Hred, Hacc.
Qed.

(** The sample query string, relayed. *)
Lemma relay_ends_at_the_requested_redirect_uri_witness :
  exists to,
    last (trace
            (snd (mount (sample_env (Responded ok_response)) "/auth/callback"
                    EmptyString
                    (sessionStorage
                       (snd (handleLogin signed_out_env
                               (snd (mount signed_out_env "/authorize"
                                       "?client_id=abc&redirect_uri=https%3A%2F%2Fx.test%2Fdone%3Fa%3D1&response_type=code"
                                       ∅))))))))
    = Some (Navigate to)
    /\ handler_by sample_setter (snd (parsePath to))
         (fun _ _ => BodyJson (JObject [("status", JString "success")]))
         sample_payment
       = [FetchVerify "/payment/verify" (verify_body sample_payment);
          LocationHref "https://x.test/done?a=1"].
Proof.
  destruct (relay_ends_at_the_requested_redirect_uri
              signed_out_env (sample_env (Responded ok_response))
              "?client_id=abc&redirect_uri=https%3A%2F%2Fx.test%2Fdone%3Fa%3D1&response_type=code"
              EmptyString ∅ sample_session ok_response sample_setter
              (fun _ _ => BodyJson (JObject [("status", JString "success")]))
              sample_payment "https://x.test/done?a=1")
    as (to & Hl & _ & _ & Hh); try reflexivity.
  exists to. split; [exact Hl | exact Hh].
Defined.

(** ** The payload *)

(** X12.  The defaults of the payload.  Whatever the session holds, the
    posted credentials never carry an empty token type, a zero expiry or an
    empty refresh token (it is [null] instead), the referrer is never
    empty, and the profile id is empty only if the user's own id is; the
    profile name is empty exactly when the session has neither a non-empty
    [full_name] nor a non-empty [name]. *)
Theorem payload_defaults_fill_the_gaps :
  forall (b : Browser) (s : Session.t),
    let d := enhancedSessionData b s in
    let m := User.user_metadata (Session.user s) in
    GoogleCredentials.token_type (google_credentials d) <> EmptyString
    /\ GoogleCredentials.expires_in (google_credentials d) <> 0%Z
    /\ GoogleCredentials.refresh_token (google_credentials d)
       <> Some EmptyString
    /\ ClientMetadata.referrer (client_metadata d) <> EmptyString
    /\ (GoogleProfile.id (google_profile d) = EmptyString ->
        User.id (Session.user s) = EmptyString)
    /\ (GoogleProfile.name (google_profile d) = EmptyString
        <-> truthy (UserMetadata.full_name m) = false
            /\ truthy (UserMetadata.name m) = false).
Proof.
  intros b s d m. subst d m.
  destruct s as [pt prt ex tt [uid em [pid fn nm av pic ev loc hd]]].
  cbn. repeat split.
  - destruct tt; discriminate.
  - unfold num_or. destruct (Z.eqb_spec ex 0); [discriminate | assumption].
  - destruct prt as [[|? ?]|]; discriminate.
  - destruct (document_referrer b); discriminate.
  - destruct pid as [[|? ?]|]; cbn; congruence.
  - destruct fn as [[|? ?]|]; cbn in *; try reflexivity; discriminate.
  - destruct fn as [[|? ?]|], nm as [[|? ?]|]; cbn in *;
      try reflexivity; discriminate.
  - intros [H1 H2].
    destruct fn as [[|? ?]|], nm as [[|? ?]|]; cbn in *;
      try reflexivity; discriminate.
Qed.

(** A session without tokens, names or expiry. *)
Lemma payload_defaults_fill_the_gaps_witness :
  GoogleProfile.id
    (google_profile
       (enhancedSessionData sample_browser
          {| Session.provider_token := None;
             Session.provider_refresh_token := Some EmptyString;
             Session.expires_in := 0;
             Session.token_type := EmptyString;
             Session.user :=
               {| User.id := EmptyString; User.email := None;
                  User.user_metadata :=
                    {| UserMetadata.provider_id := Some EmptyString;
                       UserMetadata.full_name := Some EmptyString;
                       UserMetadata.name := None;
                       UserMetadata.avatar_url := None;
                       UserMetadata.picture := None;
                       UserMetadata.email_verified := None;
                       UserMetadata.locale := None;
                       UserMetadata.custom_claims_hd := None |} |} |}))
  = EmptyString
  /\ GoogleProfile.name
       (google_profile
          (enhancedSessionData sample_browser
             {| Session.provider_token := None;
                Session.provider_refresh_token := Some EmptyString;
                Session.expires_in := 0;
                Session.token_type := EmptyString;
                Session.user :=
                  {| User.id := EmptyString; User.email := None;
                     User.user_metadata :=
                       {| UserMetadata.provider_id := Some EmptyString;
                          UserMetadata.full_name := Some EmptyString;
                          UserMetadata.name := None;
                          UserMetadata.avatar_url := None;
                          UserMetadata.picture := None;
                          UserMetadata.email_verified := None;
                          UserMetadata.locale := None;
                          UserMetadata.custom_claims_hd := None |} |} |}))
     = EmptyString.
Proof.
  split; [reflexivity|].
  apply (payload_defaults_fill_the_gaps sample_browser).
  split; reflexivity.
Defined.

(** ** The payment page's verification request *)

(** X13.  Every checkout success callback sends exactly one verification
    request, to [/payment/verify], before anything else, and follows it
    with exactly one outcome, a location or an alert.  The request carries
    the payment id as received and a signature that is never empty: the
    received one when it is non-empty, the text [no-signature]
    otherwise. *)
Theorem verification_request_always_carries_a_signature :
  forall (search : string) (verify : string -> VerifyBody -> VerifyOutcome)
         (response : RazorpayResponse),
    (exists outcome,
        handler search verify response
        = [FetchVerify "/payment/verify" (verify_body response); outcome]
        /\ ((exists href, outcome = LocationHref href)
            \/ (exists msg, outcome = Alert msg)))
    /\ razorpay_payment_id (verify_body response)
       = response_payment_id response
    /\ razorpay_signature (verify_body response) <> EmptyString
    /\ (truthy (response_signature response) = true ->
        response_signature response
        = Some (razorpay_signature (verify_body response)))
    /\ (truthy (response_signature response) = false ->
        razorpay_signature (verify_body response) = "no-signature").
Proof.
  intros search verify response. split; [|split; [reflexivity|]].
  - eexists. split; [reflexivity|].
    destruct (status_is_success
                (verify "/payment/verify" (verify_body response))) eqn:E.
    + left. eexists. apply (on_verified_success search _ E).
    + right. apply (on_verified_failure search _ E).
  - destruct response as [pid [[|c r]|]]; cbn;
      repeat split; try discriminate; reflexivity.
Qed.

(** A checkout response without a signature. *)
Lemma verification_request_always_carries_a_signature_witness :
  razorpay_signature
    (verify_body {| response_payment_id := Some "pay_123";
                    response_signature := None |})
  = "no-signature"
  /\ Some "sig"
     = Some (razorpay_signature (verify_body sample_payment)).
Proof.
  split.
  - apply (verification_request_always_carries_a_signature
             EmptyString (fun _ _ => FetchFailed "TypeError: Failed to fetch")
             {| response_payment_id := Some "pay_123";
                response_signature := None |}).
    reflexivity.
  - apply (verification_request_always_carries_a_signature
             EmptyString (fun _ _ => FetchFailed "TypeError: Failed to fetch")
             sample_payment).
    reflexivity.
Defined.

(** ** Other paths *)

(** X14.  On every path other than [/authorize] and [/auth/callback] the
    component does nothing when it is loaded: no error, no request, no
    effect, the storage as it was; it shows the default view with that
    path. *)
Theorem component_is_idle_on_other_paths :
  forall (env : Env) (path search : string) (storage : gmap string string),
    path <> "/authorize" -> path <> "/auth/callback" ->
    let w := snd (mount env path search storage) in
    w = loaded storage
    /\ render (component w) path = DefaultView path.
Proof.
  intros env path search storage H1 H2 w. subst w.
  rewrite (mount_elsewhere env path search storage H1 H2). cbn [snd].
  split; [reflexivity|]. unfold render. cbn.
  destruct (String.eqb_spec path "/auth/callback"); [contradiction|].
  destruct (String.eqb_spec path "/authorize"); [contradiction|].
  reflexivity.
Qed.

(** An authorize query under another path is not captured. *)
Lemma component_is_idle_on_other_paths_witness :
  snd (mount signed_out_env "/authorise"
         "?client_id=abc&redirect_uri=https://x.test/done&response_type=code"
         sample_storage)
  = loaded sample_storage.
Proof.
  apply (component_is_idle_on_other_paths signed_out_env "/authorise"
           "?client_id=abc&redirect_uri=https://x.test/done&response_type=code"
           sample_storage); discriminate.
Defined.

(** ** Go Back, in the two revisions *)

(** X15.  In the current revision Go Back ends the flow: whatever the
    state of the page it is pressed on, a later visit of the callback page
    in that tab, signed in, stops with
    [OAuth session expired. Please try again.] and posts nothing. *)
Theorem go_back_ends_the_flow :
  forall (env : Env) (w : World) (s : Session.t) (search : string),
    established env s ->
    let w' := snd (mount env "/auth/callback" search
                     (sessionStorage (snd (goBack w)))) in
    error (component w') = Some "OAuth session expired. Please try again."
    /\ trace w' = [].
Proof.
  intros env w s search Hs w'. subst w'. rewrite mount_callback_loaded.
  rewrite (callback_expired env _ s Hs); [now cbn|].
  cbn. unfold goBack. run_handler. cbn.
  now rewrite lookup_delete_eq.
Qed.

(** Go Back after a refused POST, then the callback page again. *)
Lemma go_back_ends_the_flow_witness :
  error
    (component
       (snd (mount (sample_env (Responded unauthorized_response))
               "/auth/callback" EmptyString
               (sessionStorage
                  (snd (goBack
                          (snd (mount
                                  (sample_env (Responded unauthorized_response))
                                  "/auth/callback" EmptyString
                                  sample_storage))))))))
  = Some "OAuth session expired. Please try again.".
Proof.
  exact (proj1 (go_back_ends_the_flow
                  (sample_env (Responded unauthorized_response))
                  (snd (mount (sample_env (Responded unauthorized_response))
                          "/auth/callback" EmptyString sample_storage))
                  sample_session EmptyString eq_refl)).
Defined.

(** X16.  In the earlier revision Go Back does not end the flow: the
    request the login button wrote survives it, and a later visit of the
    callback page, signed in, posts that request to the backend (when the
    configured backend base is a URL). *)
Theorem earlier_go_back_leaves_a_request_to_post :
  forall (origin : string) (setter : LocationSetter) (env : Env) (w : World)
         (s : Session.t) (p : OAuthParams),
    established env s ->
    sessionStorage w !! storage_key
    = Some (JSON_stringify (Object_entries p)) ->
    let w' := snd (Earlier.handleSupabaseCallback (Some origin) setter env
                     (loaded (sessionStorage (snd (Earlier.goBack w))))) in
    sessionStorage (snd (Earlier.goBack w)) !! storage_key
    = Some (JSON_stringify (Object_entries p))
    /\ head (trace w')
       = Some (Post (origin +:+ "/callback"
                     +:+ match non_empty_fields p with
                         | [] => EmptyString
                         | q => "?" +:+ URLSearchParams_toString q
                         end)
                 (SessionBody s) Earlier.post_config).
Proof.
  intros origin setter env w s p Hs Hst w'. subst w'.
  rewrite (proj1 (earlier_go_back_keeps_storage w)).
  split; [exact Hst|].
  set (w' := snd (Earlier.handleSupabaseCallback (Some origin) setter env
                    (loaded (sessionStorage w)))).
  pose proof (earlier_callback_posted origin setter env
                (loaded (sessionStorage w)) s _ (Object_entries p) Hs Hst
                (JSON_stringify_truthy _) (stored_request_reads_back p))
    as Hrun.
  cbv zeta in Hrun. fold w' in Hrun.
  assert (Hurl : URL_toString (callbackUrl origin (Object_entries p))
                 = origin +:+ "/callback"
                   +:+ match non_empty_fields p with
                       | [] => EmptyString
                       | q => "?" +:+ URLSearchParams_toString q
                       end).
  { now rewrite callbackUrl_entries. }
  unfold earlier_post in Hrun. rewrite Hurl in Hrun.
  destruct (axios_settle _) as [r|e].
  - destruct Hrun as (_ & -> & _). reflexivity.
  - rewrite Hrun. reflexivity.
Qed.

(** The sample request, Go Back, and the callback page of the earlier
    revision. *)
Lemma earlier_go_back_leaves_a_request_to_post_witness :
  head (trace
          (snd (Earlier.handleSupabaseCallback (Some Earlier.default_origin)
                  sample_setter (sample_env (Responded ok_response))
                  (loaded (sessionStorage
                             (snd (Earlier.goBack (loaded sample_storage))))))))
  = Some (Post
            "http://localhost:3000/callback?client_id=abc&redirect_uri=https%3A%2F%2Fx.test%2Fdone&response_type=code"
            (SessionBody sample_session) Earlier.post_config).
Proof.
  exact (proj2 (earlier_go_back_leaves_a_request_to_post
                  Earlier.default_origin sample_setter
                  (sample_env (Responded ok_response)) (loaded sample_storage)
                  sample_session sample_request
                  eq_refl (lookup_insert_eq _ _ _))).
Defined.

(** ** The earlier revision's callback page *)

(** X17.  The earlier revision has the same two gates: without a session
    it stops with [Failed to authenticate with Google], with a session but
    no stored request with [OAuth session expired. Please try again.], in
    both cases with the trace and the storage untouched.  With a stored
    request, a configured backend base that is not a URL stops it before
    any POST, with [An unexpected error occurred during authentication];
    and a POST that gets no response is reported without a status, as
    [Authentication failed: <axios's message>], the entry kept. *)
Theorem earlier_callback_gates_and_failure :
  forall (backend_origin : option string) (setter : LocationSetter)
         (env : Env) (w : World) (r : GetSessionResult),
    getSession env = Fulfilled r ->
    let w' := snd (Earlier.handleSupabaseCallback backend_origin setter
                     env w) in
    (sessionError r <> None \/ data_session r = None ->
       w' = stopped w "Failed to authenticate with Google")
    /\ (sessionError r = None -> data_session r <> None ->
        truthy (sessionStorage w !! storage_key) = false ->
          w' = stopped w "OAuth session expired. Please try again.")
    /\ (forall s p,
          data_session r = Some s -> sessionError r = None ->
          sessionStorage w !! storage_key
          = Some (JSON_stringify (Object_entries p)) ->
          (backend_origin = None ->
             w' = stopped w
                    "An unexpected error occurred during authentication")
          /\ (forall origin m,
                backend_origin = Some origin ->
                backend env
                  (URL_toString (callbackUrl origin (Object_entries p)))
                  (SessionBody s) = NoResponse m ->
                error (component w') = Some ("Authentication failed: " +:+ m)
                /\ sessionStorage w' = sessionStorage w
                /\ trace w'
                   = (trace w
                      ++ [earlier_post origin s (Object_entries p)])%list)).
Proof.
  intros backend_origin setter env w r Hg w'.
  destruct (earlier_callback_stopped backend_origin setter env w)
    as (Hno & Hexp & _).
  split; [|split].
  - intros H. exact (Hno r Hg H).
  - intros He Hs Ht. destruct r as [[s|] [e|]]; cbn in *; try congruence.
    exact (Hexp s Hg Ht).
  - intros s p Hs He Hst.
    assert (Hest : established env s).
    { unfold established. rewrite Hg. destruct r as [ds se]. cbn in *.
      now subst. }
    split.
    + intros ->.
      exact (earlier_callback_without_base setter env w s _
               (Object_entries p) Hest Hst (JSON_stringify_truthy _)
               (stored_request_reads_back p)).
    + intros origin m -> Hb.
      pose proof (earlier_callback_posted origin setter env w s _
                    (Object_entries p) Hest Hst (JSON_stringify_truthy _)
                    (stored_request_reads_back p)) as Hrun.
      cbv zeta in Hrun. fold w' in Hrun. rewrite Hb in Hrun.
      cbn [axios_settle] in Hrun. rewrite Hrun. now cbn.
Qed.

(** The earlier callback page without a session, with a base that is not a
    URL, and against a backend that cannot be reached. *)
Lemma earlier_callback_gates_and_failure_witness :
  snd (Earlier.handleSupabaseCallback (Some Earlier.default_origin)
         sample_setter signed_out_env (loaded sample_storage))
  = stopped (loaded sample_storage) "Failed to authenticate with Google"
  /\ snd (Earlier.handleSupabaseCallback None sample_setter
            (sample_env (NoResponse "Network Error"))
            (loaded sample_storage))
     = stopped (loaded sample_storage)
         "An unexpected error occurred during authentication"
  /\ error
       (component
          (snd (Earlier.handleSupabaseCallback (Some Earlier.default_origin)
                  sample_setter (sample_env (NoResponse "Network Error"))
                  (loaded sample_storage))))
     = Some "Authentication failed: Network Error".
Proof.
  split; [|split].
  - apply (earlier_callback_gates_and_failure (Some Earlier.default_origin)
             sample_setter signed_out_env (loaded sample_storage)
             {| data_session := None; sessionError := None |} eq_refl).
    right. reflexivity.
  - destruct (earlier_callback_gates_and_failure None sample_setter
                (sample_env (NoResponse "Network Error"))
                (loaded sample_storage)
                {| data_session := Some sample_session;
                   sessionError := None |} eq_refl)
      as (_ & _ & H).
    destruct (H sample_session sample_request eq_refl eq_refl
                (lookup_insert_eq _ _ _)) as [Hnone _].
    exact (Hnone eq_refl).
  - destruct (earlier_callback_gates_and_failure
                (Some Earlier.default_origin) sample_setter
                (sample_env (NoResponse "Network Error"))
                (loaded sample_storage)
                {| data_session := Some sample_session;
                   sessionError := None |} eq_refl)
      as (_ & _ & H).
    destruct (H sample_session sample_request eq_refl eq_refl
                (lookup_insert_eq _ _ _)) as [_ Hsome].
    exact (proj1 (Hsome Earlier.default_origin "Network Error"
                    eq_refl eq_refl)).
Defined.



(** ** The payment page and its query string *)

(** X19.  The payment page takes its target from its own query string
    and from nothing else: opened with
    [?redirect_uri=<encodeURIComponent of t>], once a payment is verified
    it assigns exactly [t] to the location, for every text [t] and without
    any check of its own.  The location is set to [t] when it accepts [t]
    as a URL; when it does not, the assignment throws and the page
    alerts. *)
Theorem payment_page_redirects_to_any_target_in_its_query :
  forall (setter : LocationSetter) (t : string)
         (verify : string -> VerifyBody -> VerifyOutcome)
         (response : RazorpayResponse),
    status_is_success (verify "/payment/verify" (verify_body response))
    = true ->
    redirectUri ("?redirect_uri=" +:+ encodeURIComponent t) = t
    /\ handler_by setter ("?redirect_uri=" +:+ encodeURIComponent t)
         verify response
       = [FetchVerify "/payment/verify" (verify_body response);
          if accepts setter t then LocationHref t
          else Alert ("Payment verification failed: "
                      +:+ href_error setter t)].
Proof.
  intros setter t verify response Hok.
  assert (Hr : redirectUri ("?redirect_uri=" +:+ encodeURIComponent t) = t).
  { unfold redirectUri. rewrite URLSearchParams_redirect_uri. cbn.
    now destruct t. }
  split; [exact Hr|].
  unfold handler_by, on_verified_by. fold (verify_body response).
  now rewrite (on_verified_success _ _ Hok), Hr.
Qed.

(** A target on another origin, never seen by the authorize page, and a
    target the location refuses. *)
Lemma payment_page_redirects_to_any_target_in_its_query_witness :
  handler_by sample_setter
    "?redirect_uri=https%3A%2F%2Felsewhere.test%2F%3Fq%3D1%262"
    (fun _ _ => BodyJson (JObject [("status", JString "success")]))
    sample_payment
  = [FetchVerify "/payment/verify" (verify_body sample_payment);
     LocationHref "https://elsewhere.test/?q=1&2"]
  /\ handler_by sample_setter "?redirect_uri=%2F%2F"
       (fun _ _ => BodyJson (JObject [("status", JString "success")]))
       sample_payment
     = [FetchVerify "/payment/verify" (verify_body sample_payment);
        Alert "Payment verification failed: SyntaxError: Invalid URL: //"].
Proof.
  split.
  - exact (proj2 (payment_page_redirects_to_any_target_in_its_query
                    sample_setter "https://elsewhere.test/?q=1&2"
                    (fun _ _ =>
                       BodyJson (JObject [("status", JString "success")]))
                    sample_payment eq_refl)).
  - exact (proj2 (payment_page_redirects_to_any_target_in_its_query
                    sample_setter "//"
                    (fun _ _ =>
                       BodyJson (JObject [("status", JString "success")]))
                    sample_payment eq_refl)).
Defined.
